(** * tiny-mongo: the collection accessor of [src/index.ts]

    The accessor is a thin layer over the MongoDB Node.js driver: it merges
    default field values into new documents, forwards every request to the
    driver and runs caller-supplied hooks after single-document mutations.

    The development has four parts:
    - JavaScript values, object spread and truthiness;
    - the accessor itself, written over an abstract driver, in a monad that
      threads the database state and a log of the driver requests and hook
      invocations made;
    - implementations of the driver interface to run the accessor on: an
      in-memory document store, a driver that replies what it is told to, a
      driver that cannot reach its server, and a record of the requests
      received that can be put in front of any driver;
    - the properties, proved for every driver where they do not depend on
      what the driver does, and on the in-memory store where they do. *)

From stdpp Require Import gmap strings list fin_maps.
From Stdlib Require Import ZArith.

Set Default Proof Using "Type".
#[local] Set Warnings "-register-all".

(** ** JavaScript values *)

(** The values a document field, a driver reply or a hook argument can hold.
    Numbers are integers here, with [VNaN] kept apart because it is falsy.
    An object is a finite map from property names to values. *)
Inductive jsval : Type :=
| VUndefined
| VNull
| VBool (b : bool)
| VNum (n : Z)
| VNaN
| VStr (s : string)
| VObjectId (n : N)
| VObj (fields : gmap string jsval).

Abbreviation document := (gmap string jsval).

#[global] Instance jsval_eq_dec : EqDecision jsval.
Proof.
  refine (fix go (v1 v2 : jsval) {struct v1} : Decision (v1 = v2) :=
    let _ : EqDecision jsval := @go in
    match v1, v2 with
    | VUndefined, VUndefined => left _
    | VNull, VNull => left _
    | VBool a, VBool b => cast_if (decide (a = b))
    | VNum a, VNum b => cast_if (decide (a = b))
    | VNaN, VNaN => left _
    | VStr a, VStr b => cast_if (decide (a = b))
    | VObjectId a, VObjectId b => cast_if (decide (a = b))
    | VObj a, VObj b => cast_if (decide (a = b))
    | _, _ => right _
    end); abstract congruence.
Defined.

(** ToBoolean: [undefined], [null], [false], [0], [NaN] and the empty string
    are falsy, everything else (every object in particular) is truthy. *)
Definition truthy (v : jsval) : bool :=
  match v with
  | VUndefined | VNull | VNaN => false
  | VBool b => b
  | VNum n => negb (n =? 0)%Z
  | VStr s => negb (String.eqb s "")
  | VObjectId _ | VObj _ => true
  end.

(** [a || b] *)
Definition js_or (a b : jsval) : jsval := if truthy a then a else b.

(** Copying the own properties of [source] onto [target]: a key of [source]
    is set in the result whatever its value, [undefined] included. *)
Definition copyDataProperties (target source : document) : document :=
  source ∪ target.

(** The object literal [{...a, ...b}]: the properties of [a] are copied onto
    a fresh object, then those of [b]. *)
Definition spread (a b : document) : document :=
  copyDataProperties (copyDataProperties ∅ a) b.

(** [array[0]] *)
Definition first_element (array : list jsval) : jsval :=
  default VUndefined (array !! 0%nat).

(** ** Promises, exceptions and the request log *)

(** An awaited promise is either fulfilled with a value or rejected. *)
Inductive settled (E A : Type) : Type :=
| Fulfilled (a : A)
| Rejected (reason : E).
Arguments Fulfilled {E A} a.
Arguments Rejected {E A} reason.

(** What an accessor operation can throw, by origin: the [Error] object it
    builds itself, a rejection of the driver, a rejection of a hook. The last
    two are passed on as they are. *)
Inductive exn : Type :=
| Error (message : string)
| DriverRejection (reason : jsval)
| HookRejection (reason : jsval).

(** The update document [{ $set: update }]. *)
Inductive UpdateQuery : Type :=
| dollar_set (update : document).

Inductive hook_kind : Type := PostCreate | PostUpdate | PostDelete.

#[global] Instance hook_kind_eq_dec : EqDecision hook_kind.
Proof. solve_decision. Defined.

(** One entry per request sent to the driver, with its arguments, and per
    hook invocation, with the argument handed to the hook. *)
Inductive event (Query : Type) : Type :=
| InsertOne (name : string) (doc : document) (options : option document)
| InsertMany (name : string) (docs : list document) (options : option document)
| FindOneAndUpdate (name : string) (filter : Query) (update : UpdateQuery)
    (options : option document)
| FindOneAndDelete (name : string) (filter : Query) (options : option document)
| FindOne (name : string) (filter : Query) (options : option document)
| Find (name : string) (filter : Query) (options : option document)
| UpdateMany (name : string) (filter : Query) (update : UpdateQuery)
    (options : option document)
| DeleteMany (name : string) (filter : Query) (options : option document)
| HookCall (kind : hook_kind) (arg : jsval).
Arguments InsertOne {Query}.
Arguments InsertMany {Query}.
Arguments FindOneAndUpdate {Query}.
Arguments FindOneAndDelete {Query}.
Arguments FindOne {Query}.
Arguments Find {Query}.
Arguments UpdateMany {Query}.
Arguments DeleteMany {Query}.
Arguments HookCall {Query}.

Definition is_hook_call {Query} (e : event Query) : bool :=
  match e with HookCall _ _ => true | _ => false end.

(** The hook invocations of a log, in order. *)
Definition hook_calls {Query} (l : list (event Query)) : list (hook_kind * jsval) :=
  omap (λ e, match e with HookCall k a => Some (k, a) | _ => None end) l.

(** The driver requests of a log, in order. *)
Definition driver_requests {Query} (l : list (event Query)) : list (event Query) :=
  filter (λ e, is_hook_call e = false) l.

(** ** The driver interface *)

Module Mongo.
(** The fields of the driver's replies that the accessor reads
    ([modifiedCount] is the one it does not read). *)
Record CommandResult := { ok : Z; n : Z }.
Record InsertOneWriteOpResult := {
  ops : option (list jsval);
  result : CommandResult
}.
Record InsertWriteOpResult := { insertedIds : list jsval }.
Record FindAndModifyWriteOpResult := { value : jsval }.
Record UpdateWriteOpResult := { matchedCount : nat; modifiedCount : nat }.
Record DeleteWriteOpResult := { deletedCount : nat }.

(** A request acts on the database state and settles. *)
Definition request (DB A : Type) : Type := DB → settled jsval A * DB.

(** [database.collection(name).op(...)] for the eight requests the accessor
    sends ([find] stands for [find(...).toArray()]). Options are plain
    objects, passed through as given. *)
Record Db (DB Query : Type) := {
  insertOne : string → document → option document →
              request DB InsertOneWriteOpResult;
  insertMany : string → list document → option document →
               request DB InsertWriteOpResult;
  findOneAndUpdate : string → Query → UpdateQuery → option document →
                     request DB FindAndModifyWriteOpResult;
  findOneAndDelete : string → Query → option document →
                     request DB FindAndModifyWriteOpResult;
  findOne : string → Query → option document → request DB jsval;
  find : string → Query → option document → request DB (list jsval);
  updateMany : string → Query → UpdateQuery → option document →
               request DB UpdateWriteOpResult;
  deleteMany : string → Query → option document →
               request DB DeleteWriteOpResult
}.
Arguments insertOne {DB Query}.
Arguments insertMany {DB Query}.
Arguments findOneAndUpdate {DB Query}.
Arguments findOneAndDelete {DB Query}.
Arguments findOne {DB Query}.
Arguments find {DB Query}.
Arguments updateMany {DB Query}.
Arguments deleteMany {DB Query}.
End Mongo.

(** A hook is caller code: it receives the document, may itself act on the
    database, and its promise settles. The hook is handed the very object the
    operation then returns; hooks are taken not to modify it. *)
Abbreviation Hook DB := (jsval → DB → settled jsval () * DB).

Record Hooks (DB : Type) := {
  postCreateHook : option (Hook DB);
  postUpdateHook : option (Hook DB);
  postDeleteHook : option (Hook DB)
}.
Arguments postCreateHook {DB}.
Arguments postUpdateHook {DB}.
Arguments postDeleteHook {DB}.

Record CollectionConfig (DB : Type) := {
  defaults : option document;
  hooks : option (Hooks DB)
}.
Arguments defaults {DB}.
Arguments hooks {DB}.

(** ** The monad of accessor operations *)

Record world (DB Query : Type) := {
  db : DB;
  log : list (event Query)
}.
Arguments db {DB Query}.
Arguments log {DB Query}.

Definition M (DB Query A : Type) : Type :=
  world DB Query → settled exn A * world DB Query.

#[global] Instance M_ret {DB Query} : MRet (M DB Query) :=
  λ A a w, (Fulfilled a, w).
#[global] Instance M_bind {DB Query} : MBind (M DB Query) :=
  λ A B k m w,
    match m w with
    | (Fulfilled a, w') => k a w'
    | (Rejected e, w') => (Rejected e, w')
    end.

Definition throw {DB Query A} (e : exn) : M DB Query A :=
  λ w, (Rejected e, w).

(** [await] of a driver request: the request is logged, the database state
    is the one the driver leaves, a rejection is rethrown. *)
Definition await_request {DB Query A} (ev : event Query)
    (op : Mongo.request DB A) : M DB Query A :=
  λ w,
    let '(r, db') := op (db w) in
    (match r with
     | Fulfilled a => Fulfilled a
     | Rejected e => Rejected (DriverRejection e)
     end,
     {| db := db'; log := log w ++ [ev] |}).

(** [await hook(document)] *)
Definition await_hook {DB Query} (kind : hook_kind) (hook : Hook DB)
    (arg : jsval) : M DB Query () :=
  λ w,
    let '(r, db') := hook arg (db w) in
    (match r with
     | Fulfilled a => Fulfilled a
     | Rejected e => Rejected (HookRejection e)
     end,
     {| db := db'; log := log w ++ [HookCall kind arg] |}).

(** ** The accessor *)

(** The object [createCollection] returns: the eight operations. *)
Record Collection (DB Query : Type) := {
  createOne : document → option document → M DB Query jsval;
  createMany : list document → option document → M DB Query (list jsval);
  updateOne : Query → document → option document → M DB Query jsval;
  deleteOne : Query → option document → M DB Query jsval;
  readOne : Query → option document → M DB Query jsval;
  readMany : Query → option document → M DB Query (list jsval);
  updateMany : Query → document → option document → M DB Query nat;
  deleteMany : Query → option document → M DB Query nat
}.
Arguments createOne {DB Query}.
Arguments createMany {DB Query}.
Arguments updateOne {DB Query}.
Arguments deleteOne {DB Query}.
Arguments readOne {DB Query}.
Arguments readMany {DB Query}.
Arguments updateMany {DB Query}.
Arguments deleteMany {DB Query}.

Section accessor.
Context {DB Query : Type}.
Implicit Types (database : Mongo.Db DB Query) (name : string).

(** The closure built by [createCollection(name, { defaults, hooks })]:
    [src/index.ts], lines 39 to 124. *)
Definition collection database name
    (defaults : option document) (hooks : option (Hooks DB)) :
    Collection DB Query := {|
  createOne := λ input options,
    let inputWithDefaults :=
      match defaults with
      | Some defaults => spread defaults input
      | None => input
      end in
    result ← await_request (InsertOne name inputWithDefaults options)
               (Mongo.insertOne database name inputWithDefaults options);
    let newDocument :=
      match Mongo.ops result with
      | Some ops =>
          if truthy (VNum (Mongo.ok (Mongo.result result)))
          then first_element ops else VUndefined
      | None => VUndefined
      end in
    if negb (truthy newDocument)
    then throw (Error "Fa`iled to create new document")
    else
      _ ← match hooks ≫= postCreateHook with
          | Some hook => await_hook PostCreate hook newDocument
          | None => mret ()
          end;
      mret newDocument;
  createMany := λ inputs options,
    let inputsWithDefaults :=
      match defaults with
      | Some defaults => (λ i, spread defaults i) <$> inputs
      | None => inputs
      end in
    result ← await_request (InsertMany name inputsWithDefaults options)
               (Mongo.insertMany database name inputsWithDefaults options);
    mret (Mongo.insertedIds result);
  updateOne := λ query update options,
    result ← await_request
               (FindOneAndUpdate name query (dollar_set update) options)
               (Mongo.findOneAndUpdate database name query (dollar_set update)
                  options);
    let updatedDocument := Mongo.value result in
    _ ← (if truthy updatedDocument
         then match hooks ≫= postUpdateHook with
              | Some hook => await_hook PostUpdate hook updatedDocument
              | None => mret ()
              end
         else mret ());
    mret updatedDocument;
  deleteOne := λ query options,
    result ← await_request (FindOneAndDelete name query options)
               (Mongo.findOneAndDelete database name query options);
    let deletedDocument := Mongo.value result in
    _ ← (if truthy deletedDocument
         then match hooks ≫= postDeleteHook with
              | Some hook => await_hook PostDelete hook deletedDocument
              | None => mret ()
              end
         else mret ());
    mret deletedDocument;
  readOne := λ query options,
    result ← await_request (FindOne name query options)
               (Mongo.findOne database name query options);
    mret (js_or result VNull);
  readMany := λ query options,
    result ← await_request (Find name query options)
               (Mongo.find database name query options);
    mret result;
  updateMany := λ query update options,
    result ← await_request
               (UpdateMany name query (dollar_set update) options)
               (Mongo.updateMany database name query (dollar_set update) options);
    mret (Mongo.matchedCount result);
  deleteMany := λ query options,
    result ← await_request (DeleteMany name query options)
               (Mongo.deleteMany database name query options);
    mret (Mongo.deletedCount result)
|}.

(** [createCollectionFactory(database)(name, config)]: the configuration
    defaults to [{}], is destructured, and the closure is returned. Calling
    it is itself an operation, so that what it does to the database can be
    stated. *)
Definition createCollectionFactory database name
    (config : option (CollectionConfig DB)) :
    M DB Query (Collection DB Query) :=
  let config := default {| defaults := None; hooks := None |} config in
  mret (collection database name (defaults config) (hooks config)).
End accessor.

(** ** An in-memory document store

    A reference implementation of the driver interface, following the
    behaviour the MongoDB Node.js driver (3.x, the release whose reply shapes
    [result.ops] and [result.result.ok] the accessor reads) documents for the
    requests the accessor sends: a collection is the list of its documents in
    insertion order, a filter is a predicate on documents, and
    - an inserted document without [_id] is given a fresh [ObjectId], and the
      reply's [ops] holds the document with its [_id];
    - [findOneAndUpdate] and [findOneAndDelete] act on the first matching
      document and reply with [value: null] when there is none;
    - [findOneAndUpdate] replies with the document as it was before the
      update, unless the options hold [returnOriginal: false];
    - [updateMany] reports in [matchedCount] how many documents the filter
      selects and in [modifiedCount] how many of them the update changed.
    Upserts, projections, sorting and the BSON encoding of values are not
    modelled. *)
Module Mem.

Record DB := {
  collections : gmap string (list document);
  nextId : N
}.

Definition Query : Type := document → bool.

Definition documents (name : string) (s : DB) : list document :=
  default [] (collections s !! name).

Definition set_documents (name : string) (l : list document) (s : DB) : DB :=
  {| collections := <[name := l]> (collections s); nextId := nextId s |}.

(** The driver gives a document an [_id] when [doc._id == null]. *)
Definition prepare (id : N) (doc : document) : document :=
  match doc !! "_id" with
  | None | Some VUndefined | Some VNull => <["_id" := VObjectId id]> doc
  | Some _ => doc
  end.

Definition has_id (l : list document) (doc : document) : bool :=
  existsb (λ d, bool_decide (d !! "_id" = doc !! "_id")) l.

Definition insert_document (name : string) (doc : document) (s : DB) :
    settled jsval document * DB :=
  let doc' := prepare (nextId s) doc in
  if has_id (documents name s) doc'
  then (Rejected (VStr "E11000 duplicate key error"), s)
  else (Fulfilled doc',
        {| collections := <[name := documents name s ++ [doc']]> (collections s);
           nextId := N.succ (nextId s) |}).

Definition insertOne (name : string) (doc : document)
    (options : option document) : Mongo.request DB Mongo.InsertOneWriteOpResult :=
  λ s,
    match insert_document name doc s with
    | (Fulfilled doc', s') =>
        (Fulfilled {| Mongo.ops := Some [VObj doc'];
                      Mongo.result := {| Mongo.ok := 1; Mongo.n := 1 |} |}, s')
    | (Rejected e, s') => (Rejected e, s')
    end.

(** An ordered bulk insert: it stops at the first document refused, the
    documents before it stay inserted. *)
Fixpoint insert_documents (name : string) (docs : list document) (s : DB) :
    settled jsval (list jsval) * DB :=
  match docs with
  | [] => (Fulfilled [], s)
  | doc :: docs =>
      match insert_document name doc s with
      | (Fulfilled doc', s') =>
          match insert_documents name docs s' with
          | (Fulfilled ids, s'') =>
              (Fulfilled (default VUndefined (doc' !! "_id") :: ids), s'')
          | (Rejected e, s'') => (Rejected e, s'')
          end
      | (Rejected e, s') => (Rejected e, s')
      end
  end.

Definition insertMany (name : string) (docs : list document)
    (options : option document) : Mongo.request DB Mongo.InsertWriteOpResult :=
  λ s,
    match insert_documents name docs s with
    | (Fulfilled ids, s') => (Fulfilled {| Mongo.insertedIds := ids |}, s')
    | (Rejected e, s') => (Rejected e, s')
    end.

(** [$set]: every field of [update] is set in the document. *)
Definition apply_update (update : UpdateQuery) (doc : document) : document :=
  match update with dollar_set update => update ∪ doc end.

(** The first document the filter selects, and the list once [f] has replaced
    it ([Some]) or removed it ([None]). *)
Fixpoint modify_first (filter : Query) (f : document → option document)
    (l : list document) : option document * list document :=
  match l with
  | [] => (None, [])
  | d :: l' =>
      if filter d
      then (Some d, match f d with Some d' => d' :: l' | None => l' end)
      else let '(found, l'') := modify_first filter f l' in (found, d :: l'')
  end.

Definition returnOriginal (options : option document) : bool :=
  match options ≫= (λ o, o !! "returnOriginal") with
  | Some (VBool b) => b
  | _ => true
  end.

Definition findOneAndUpdate (name : string) (filter : Query)
    (update : UpdateQuery) (options : option document) :
    Mongo.request DB Mongo.FindAndModifyWriteOpResult :=
  λ s,
    match modify_first filter (λ d, Some (apply_update update d))
            (documents name s) with
    | (Some d, l) =>
        (Fulfilled {| Mongo.value :=
                        VObj (if returnOriginal options then d
                              else apply_update update d) |},
         set_documents name l s)
    | (None, _) => (Fulfilled {| Mongo.value := VNull |}, s)
    end.

Definition findOneAndDelete (name : string) (filter : Query)
    (options : option document) :
    Mongo.request DB Mongo.FindAndModifyWriteOpResult :=
  λ s,
    match modify_first filter (λ _, None) (documents name s) with
    | (Some d, l) => (Fulfilled {| Mongo.value := VObj d |}, set_documents name l s)
    | (None, _) => (Fulfilled {| Mongo.value := VNull |}, s)
    end.

Definition findOne (name : string) (filter : Query)
    (options : option document) : Mongo.request DB jsval :=
  λ s,
    (Fulfilled (match List.filter filter (documents name s) with
                | d :: _ => VObj d
                | [] => VNull
                end), s).

Definition find (name : string) (filter : Query)
    (options : option document) : Mongo.request DB (list jsval) :=
  λ s, (Fulfilled (VObj <$> List.filter filter (documents name s)), s).

Definition updateMany (name : string) (filter : Query) (update : UpdateQuery)
    (options : option document) : Mongo.request DB Mongo.UpdateWriteOpResult :=
  λ s,
    let matched := List.filter filter (documents name s) in
    (Fulfilled
       {| Mongo.matchedCount := length matched;
          Mongo.modifiedCount :=
            length (List.filter
                      (λ d, negb (bool_decide (apply_update update d = d)))
                      matched) |},
     set_documents name
       ((λ d, if filter d then apply_update update d else d)
          <$> documents name s) s).

Definition deleteMany (name : string) (filter : Query)
    (options : option document) : Mongo.request DB Mongo.DeleteWriteOpResult :=
  λ s,
    (Fulfilled
       {| Mongo.deletedCount := length (List.filter filter (documents name s)) |},
     set_documents name
       (List.filter (λ d, negb (filter d)) (documents name s)) s).

Definition database : Mongo.Db DB Query := {|
  Mongo.insertOne := insertOne;
  Mongo.insertMany := insertMany;
  Mongo.findOneAndUpdate := findOneAndUpdate;
  Mongo.findOneAndDelete := findOneAndDelete;
  Mongo.findOne := findOne;
  Mongo.find := find;
  Mongo.updateMany := updateMany;
  Mongo.deleteMany := deleteMany
|}.

Definition empty : DB := {| collections := ∅; nextId := 0 |}.

(** The filter [{ [field]: v }]. *)
Definition field_is (field : string) (v : jsval) : Query :=
  λ d, bool_decide (d !! field = Some v).

End Mem.

(** ** Definitions used to state the properties *)

(** The default-merge as the specification words it: a shallow copy of
    Defaults on which every key present in the input is set, in turn; without
    Defaults the input is taken as it is. *)
Definition default_merge (Defaults : option document) (input : document) :
    document :=
  match Defaults with
  | Some Defaults => map_fold (λ k v result, <[k := v]> result) Defaults input
  | None => input
  end.

(** The document [createOne] takes from the reply of [insertOne]:
    [result.ops && result.result.ok ? result.ops[0] : undefined]. *)
Definition newDocument (result : Mongo.InsertOneWriteOpResult) : jsval :=
  match Mongo.ops result with
  | Some ops =>
      if truthy (VNum (Mongo.ok (Mongo.result result)))
      then first_element ops else VUndefined
  | None => VUndefined
  end.

(** The error [createOne] throws itself. *)
Definition creation_error : exn := Error "Fa`iled to create new document".

(** The state after a request: the database as the driver left it, the
    request logged. *)
Definition requested {DB Query} (w : world DB Query) (ev : event Query)
    (db1 : DB) : world DB Query :=
  {| db := db1; log := log w ++ [ev] |}.

(** The state after a request and the hook that followed it. *)
Definition hooked {DB Query} (w : world DB Query) (ev : event Query)
    (kind : hook_kind) (arg : jsval) (db2 : DB) : world DB Query :=
  {| db := db2; log := log w ++ [ev; HookCall kind arg] |}.

(** A single request whose reply is returned through [f]. *)
Definition forwarded {DB Query A B} (w : world DB Query) (ev : event Query)
    (f : A → B) (reply : settled jsval A * DB) :
    settled exn B * world DB Query :=
  match reply with
  | (Fulfilled a, db1) => (Fulfilled (f a), requested w ev db1)
  | (Rejected e, db1) => (Rejected (DriverRejection e), requested w ev db1)
  end.

(** What [updateOne] and [deleteOne] do once [findOneAndUpdate] or
    [findOneAndDelete] has settled: the hook runs on a truthy document only,
    and the document is returned as the driver gave it. *)
Definition found_then_hook {DB Query} (w : world DB Query) (ev : event Query)
    (kind : hook_kind) (hook : option (Hook DB))
    (reply : settled jsval Mongo.FindAndModifyWriteOpResult * DB) :
    settled exn jsval * world DB Query :=
  match reply with
  | (Rejected e, db1) => (Rejected (DriverRejection e), requested w ev db1)
  | (Fulfilled r, db1) =>
      let document := Mongo.value r in
      if truthy document
      then match hook with
           | Some hook =>
               match hook document db1 with
               | (Fulfilled _, db2) =>
                   (Fulfilled document, hooked w ev kind document db2)
               | (Rejected e, db2) =>
                   (Rejected (HookRejection e), hooked w ev kind document db2)
               end
           | None => (Fulfilled document, requested w ev db1)
           end
      else (Fulfilled document, requested w ev db1)
  end.


(** ** A driver that replies what it is told to

    It stores nothing: [insertOne] settles with the given reply, the three
    find requests with the given value. It stands for a driver that reports
    no created document, or a find that yields [undefined]. *)
Module Stub.

Definition database (insert_reply : Mongo.InsertOneWriteOpResult)
    (found : jsval) : Mongo.Db () () := {|
  Mongo.insertOne := λ _ _ _ s, (Fulfilled insert_reply, s);
  Mongo.insertMany := λ _ _ _ s, (Fulfilled {| Mongo.insertedIds := [] |}, s);
  Mongo.findOneAndUpdate := λ _ _ _ _ s,
    (Fulfilled {| Mongo.value := found |}, s);
  Mongo.findOneAndDelete := λ _ _ _ s,
    (Fulfilled {| Mongo.value := found |}, s);
  Mongo.findOne := λ _ _ _ s, (Fulfilled found, s);
  Mongo.find := λ _ _ _ s, (Fulfilled [], s);
  Mongo.updateMany := λ _ _ _ _ s,
    (Fulfilled {| Mongo.matchedCount := 0; Mongo.modifiedCount := 0 |}, s);
  Mongo.deleteMany := λ _ _ _ s, (Fulfilled {| Mongo.deletedCount := 0 |}, s)
|}.

(** An acknowledged insert whose reply holds no document. *)
Definition nothing_written : Mongo.InsertOneWriteOpResult :=
  {| Mongo.ops := Some []; Mongo.result := {| Mongo.ok := 1; Mongo.n := 0 |} |}.

Definition started : world () () := {| db := (); log := [] |}.

End Stub.

(** ** A collection of users, to run the accessor on *)
Module Users.

Definition name : string := "test-users".
Definition defaults : document := {["isAdmin" := VBool false]}.

(** A hook that fails without touching the database. *)
Definition failing_hook : Hook Mem.DB :=
  λ _ s, (Rejected (VStr "hook failed"), s).

(** A hook that records the document it is given in another collection. *)
Definition audit_hook : Hook Mem.DB :=
  λ doc s,
    match Mem.insert_document "audit" {["document" := doc]} s with
    | (Fulfilled _, s') => (Fulfilled (), s')
    | (Rejected e, s') => (Rejected e, s')
    end.

Definition failing_hooks : Hooks Mem.DB := {|
  postCreateHook := Some failing_hook;
  postUpdateHook := Some failing_hook;
  postDeleteHook := Some failing_hook
|}.

Definition audit_hooks : Hooks Mem.DB := {|
  postCreateHook := Some audit_hook;
  postUpdateHook := Some audit_hook;
  postDeleteHook := Some audit_hook
|}.

Definition users (hooks : option (Hooks Mem.DB)) : Collection Mem.DB Mem.Query :=
  collection Mem.database name (Some defaults) hooks.

Definition yoda_input : document := {["name" := VStr "Yoda"]}.

Definition yoda : document :=
  {["_id" := VObjectId 0; "name" := VStr "Yoda"; "isAdmin" := VBool false]}.

Definition yoda_admin : document :=
  {["_id" := VObjectId 0; "name" := VStr "Yoda"; "isAdmin" := VBool true]}.

Definition vader : document :=
  {["_id" := VObjectId 1; "name" := VStr "Vader"; "isAdmin" := VBool true]}.

Definition named (n : string) : Mem.Query := Mem.field_is "name" (VStr n).

Definition store (docs : list document) : Mem.DB :=
  {| Mem.collections := {[name := docs]}; Mem.nextId := N.of_nat (length docs) |}.

Definition started (docs : list document) : world Mem.DB Mem.Query :=
  {| db := store docs; log := [] |}.

End Users.

(** ** A driver that cannot reach its server

    Every request is rejected with the same reason, as on a connection that
    has been closed. *)
Module Offline.

Definition reason : jsval := VStr "MongoError: Topology was destroyed".

Definition database : Mongo.Db () () := {|
  Mongo.insertOne := λ _ _ _ s, (Rejected reason, s);
  Mongo.insertMany := λ _ _ _ s, (Rejected reason, s);
  Mongo.findOneAndUpdate := λ _ _ _ _ s, (Rejected reason, s);
  Mongo.findOneAndDelete := λ _ _ _ s, (Rejected reason, s);
  Mongo.findOne := λ _ _ _ s, (Rejected reason, s);
  Mongo.find := λ _ _ _ s, (Rejected reason, s);
  Mongo.updateMany := λ _ _ _ _ s, (Rejected reason, s);
  Mongo.deleteMany := λ _ _ _ s, (Rejected reason, s)
|}.

(** Hooks that would succeed, were they invoked. *)
Definition hooks : Hooks () := {|
  postCreateHook := Some (λ _ s, (Fulfilled (), s));
  postUpdateHook := Some (λ _ s, (Fulfilled (), s));
  postDeleteHook := Some (λ _ s, (Fulfilled (), s))
|}.

Definition started : world () () := {| db := (); log := [] |}.

End Offline.

(** ** A driver that keeps a record of what it receives

    It stands in front of any driver: each request is handed on to that
    driver unchanged and noted, with its arguments, in a record that is part
    of the database state. The record is the driver's own, apart from the log
    of the accessor's monad. *)
Module Recorder.

Definition DB (S Query : Type) : Type := S * list (event Query).

Definition record {S Query A} (ev : event Query) (op : Mongo.request S A) :
    Mongo.request (DB S Query) A :=
  λ s, let '(r, s') := op s.1 in (r, (s', s.2 ++ [ev])).

Definition database {S Query} (inner : Mongo.Db S Query) :
    Mongo.Db (DB S Query) Query := {|
  Mongo.insertOne := λ name doc options,
    record (InsertOne name doc options)
      (Mongo.insertOne inner name doc options);
  Mongo.insertMany := λ name docs options,
    record (InsertMany name docs options)
      (Mongo.insertMany inner name docs options);
  Mongo.findOneAndUpdate := λ name filter update options,
    record (FindOneAndUpdate name filter update options)
      (Mongo.findOneAndUpdate inner name filter update options);
  Mongo.findOneAndDelete := λ name filter options,
    record (FindOneAndDelete name filter options)
      (Mongo.findOneAndDelete inner name filter options);
  Mongo.findOne := λ name filter options,
    record (FindOne name filter options)
      (Mongo.findOne inner name filter options);
  Mongo.find := λ name filter options,
    record (Find name filter options) (Mongo.find inner name filter options);
  Mongo.updateMany := λ name filter update options,
    record (UpdateMany name filter update options)
      (Mongo.updateMany inner name filter update options);
  Mongo.deleteMany := λ name filter options,
    record (DeleteMany name filter options)
      (Mongo.deleteMany inner name filter options)
|}.

(** What the driver has received so far. *)
Definition received {S Query} (w : world (DB S Query) Query) :
    list (event Query) :=
  (db w).2.

(** A hook written for the inner database: it acts on that database and
    cannot touch the record. *)
Definition hook {S} (Query : Type) (h : Hook S) : Hook (DB S Query) :=
  λ doc s, let '(r, s') := h doc s.1 in (r, (s', s.2)).

Definition hooks {S} (Query : Type) (hs : Hooks S) : Hooks (DB S Query) := {|
  postCreateHook := hook Query <$> postCreateHook hs;
  postUpdateHook := hook Query <$> postUpdateHook hs;
  postDeleteHook := hook Query <$> postDeleteHook hs
|}.

End Recorder.

(** * Properties *)

(** ** Object spread and the default-merge *)

Lemma spread_lookup (a b : document) (k : string) :
  spread a b !! k = match b !! k with Some v => Some v | None => a !! k end.
Proof.
  unfold spread, copyDataProperties.
  rewrite (right_id_L ∅ (∪) a), lookup_union.
  by destruct (b !! k), (a !! k).
Qed.

Lemma overlay_fold (a b : document) :
  map_fold (λ k v result, <[k := v]> result) a b = b ∪ a.
Proof.
  induction b as [|k v b Hk Hfirst IH] using map_first_key_ind.
  - by rewrite map_fold_empty, (left_id_L ∅ (∪)).
  - rewrite map_fold_insert_first_key by done.
    by rewrite IH, insert_union_l.
Qed.

(** The spread the accessor writes is the default-merge of the
    specification. *)
Lemma spread_default_merge (Defaults input : document) :
  spread Defaults input = default_merge (Some Defaults) input.
Proof.
  unfold default_merge. rewrite overlay_fold.
  unfold spread, copyDataProperties. by rewrite (right_id_L ∅ (∪)).
Qed.

Lemma default_merge_lookup (Defaults : option document) (input : document)
    (k : string) :
  default_merge Defaults input !! k =
    match input !! k with
    | Some v => Some v
    | None => Defaults ≫= (λ d, d !! k)
    end.
Proof.
  destruct Defaults as [d|].
  - by rewrite <- spread_default_merge, spread_lookup.
  - simpl. by destruct (input !! k).
Qed.

(** ** The log *)

Lemma hook_calls_app {Query} (l1 l2 : list (event Query)) :
  hook_calls (l1 ++ l2) = hook_calls l1 ++ hook_calls l2.
Proof. unfold hook_calls. apply omap_app. Qed.

Lemma driver_requests_app {Query} (l1 l2 : list (event Query)) :
  driver_requests (l1 ++ l2) = driver_requests l1 ++ driver_requests l2.
Proof. unfold driver_requests. apply filter_app. Qed.

(** ** The operations, request by request *)

Section operations.
Context {DB Query : Type}.
Context (database : Mongo.Db DB Query) (name : string).
Context (defaults : option document) (hooks : option (Hooks DB)).

Local Abbreviation c := (collection database name defaults hooks).

Lemma await_hook_after_request (w : world DB Query) ev kind hook arg db1 :
  await_hook kind hook arg (requested w ev db1) =
    let '(r, db2) := hook arg db1 in
    (match r with
     | Fulfilled a => Fulfilled a
     | Rejected e => Rejected (HookRejection e)
     end, hooked w ev kind arg db2).
Proof.
  unfold await_hook, requested, hooked; simpl.
  destruct (hook arg db1) as [r db2].
  by rewrite <- (assoc_L (++)).
Qed.

Lemma createOne_unfold input options w :
  createOne c input options w =
    let doc := default_merge defaults input in
    let ev := InsertOne name doc options in
    match Mongo.insertOne database name doc options (db w) with
    | (Rejected e, db1) => (Rejected (DriverRejection e), requested w ev db1)
    | (Fulfilled r, db1) =>
        if truthy (newDocument r)
        then match hooks ≫= postCreateHook with
             | Some hook =>
                 match hook (newDocument r) db1 with
                 | (Fulfilled _, db2) =>
                     (Fulfilled (newDocument r),
                      hooked w ev PostCreate (newDocument r) db2)
                 | (Rejected e, db2) =>
                     (Rejected (HookRejection e),
                      hooked w ev PostCreate (newDocument r) db2)
                 end
             | None => (Fulfilled (newDocument r), requested w ev db1)
             end
        else (Rejected creation_error, requested w ev db1)
    end.
Proof.
  assert (Hdoc : match defaults with
                 | Some d => spread d input
                 | None => input
                 end = default_merge defaults input).
  { destruct defaults; [apply spread_default_merge | done]. }
  cbn -[default_merge truthy first_element]. rewrite Hdoc.
  unfold mbind, M_bind, await_request.
  destruct (Mongo.insertOne _ _ _ _ _) as [[r|e] db1]; [|done].
  fold (newDocument r). fold (requested w (InsertOne name (default_merge defaults input) options) db1).
  destruct (truthy (newDocument r)); [simpl|reflexivity].
  destruct hooks as [[[hook|] ? ?]|]; simpl; [|reflexivity..].
  rewrite await_hook_after_request.
  destruct (hook _ _) as [[[]|e] db2]; reflexivity.
Qed.

Lemma createMany_unfold inputs options w :
  createMany c inputs options w =
    let docs := default_merge defaults <$> inputs in
    forwarded w (InsertMany name docs options) Mongo.insertedIds
      (Mongo.insertMany database name docs options (db w)).
Proof.
  assert (Hdocs : match defaults with
                  | Some d => (λ i, spread d i) <$> inputs
                  | None => inputs
                  end = default_merge defaults <$> inputs).
  { destruct defaults as [d|]; simpl.
    - apply list_fmap_ext. intros _ i _. apply spread_default_merge.
    - by rewrite list_fmap_id. }
  cbn -[default_merge]. rewrite Hdocs.
  unfold mbind, M_bind, await_request, forwarded.
  by destruct (Mongo.insertMany _ _ _ _ _) as [[r|e] db1].
Qed.

Lemma updateOne_unfold query update options w :
  updateOne c query update options w =
    found_then_hook w
      (FindOneAndUpdate name query (dollar_set update) options)
      PostUpdate (hooks ≫= postUpdateHook)
      (Mongo.findOneAndUpdate database name query (dollar_set update) options
         (db w)).
Proof.
  cbn -[truthy].
  unfold mbind, M_bind, await_request, found_then_hook.
  destruct (Mongo.findOneAndUpdate _ _ _ _ _ _) as [[r|e] db1]; [|done].
  fold (requested w (FindOneAndUpdate name query (dollar_set update) options) db1).
  destruct (truthy (Mongo.value r)); [|reflexivity].
  destruct hooks as [[? [hook|] ?]|]; simpl; [|reflexivity..].
  rewrite await_hook_after_request.
  destruct (hook _ _) as [[[]|e] db2]; reflexivity.
Qed.

Lemma deleteOne_unfold query options w :
  deleteOne c query options w =
    found_then_hook w (FindOneAndDelete name query options)
      PostDelete (hooks ≫= postDeleteHook)
      (Mongo.findOneAndDelete database name query options (db w)).
Proof.
  cbn -[truthy].
  unfold mbind, M_bind, await_request, found_then_hook.
  destruct (Mongo.findOneAndDelete _ _ _ _ _) as [[r|e] db1]; [|done].
  fold (requested w (FindOneAndDelete name query options) db1).
  destruct (truthy (Mongo.value r)); [|reflexivity].
  destruct hooks as [[? ? [hook|]]|]; simpl; [|reflexivity..].
  rewrite await_hook_after_request.
  destruct (hook _ _) as [[[]|e] db2]; reflexivity.
Qed.

Lemma readOne_unfold query options w :
  readOne c query options w =
    forwarded w (FindOne name query options) (λ result, js_or result VNull)
      (Mongo.findOne database name query options (db w)).
Proof.
  cbn -[js_or].
  unfold mbind, M_bind, await_request, forwarded.
  by destruct (Mongo.findOne _ _ _ _ _) as [[r|e] db1].
Qed.

Lemma readMany_unfold query options w :
  readMany c query options w =
    forwarded w (Find name query options) id
      (Mongo.find database name query options (db w)).
Proof.
  cbn.
  unfold mbind, M_bind, await_request, forwarded.
  by destruct (Mongo.find _ _ _ _ _) as [[r|e] db1].
Qed.

Lemma updateMany_unfold query update options w :
  updateMany c query update options w =
    forwarded w (UpdateMany name query (dollar_set update) options)
      Mongo.matchedCount
      (Mongo.updateMany database name query (dollar_set update) options (db w)).
Proof.
  cbn.
  unfold mbind, M_bind, await_request, forwarded.
  by destruct (Mongo.updateMany _ _ _ _ _ _) as [[r|e] db1].
Qed.

Lemma deleteMany_unfold query options w :
  deleteMany c query options w =
    forwarded w (DeleteMany name query options) Mongo.deletedCount
      (Mongo.deleteMany database name query options (db w)).
Proof.
  cbn.
  unfold mbind, M_bind, await_request, forwarded.
  by destruct (Mongo.deleteMany _ _ _ _ _) as [[r|e] db1].
Qed.

Lemma forwarded_log {A B} (w : world DB Query) ev (f : A → B) reply :
  log (forwarded w ev f reply).2 = log w ++ [ev].
Proof. by destruct reply as [[a|e] db1]. Qed.

Lemma forwarded_hook_calls {A B} (w : world DB Query) ev (f : A → B) reply :
  is_hook_call ev = false →
  hook_calls (log (forwarded w ev f reply).2) = hook_calls (log w).
Proof.
  intros Hev. rewrite forwarded_log, hook_calls_app.
  destruct ev; try discriminate; simpl; by rewrite (right_id_L [] (++)).
Qed.
Lemma hooked_hook_calls (w : world DB Query) ev kind arg db2 :
  is_hook_call ev = false →
  hook_calls (log (hooked w ev kind arg db2)) =
    hook_calls (log w) ++ [(kind, arg)].
Proof.
  intros Hev. unfold hooked; simpl. rewrite hook_calls_app.
  by destruct ev; try discriminate.
Qed.

Lemma requested_hook_calls (w : world DB Query) ev db1 :
  is_hook_call ev = false →
  hook_calls (log (requested w ev db1)) = hook_calls (log w).
Proof.
  intros Hev. unfold requested; simpl. rewrite hook_calls_app.
  destruct ev; try discriminate; simpl; by rewrite (right_id_L [] (++)).
Qed.

Lemma truthy_not_sentinel (v : jsval) :
  truthy v = true → v ≠ VNull ∧ v ≠ VUndefined.
Proof. by destruct v. Qed.

Lemma createOne_log input options w :
  (∃ rest,
      log (createOne c input options w).2 =
        log w ++ InsertOne name (default_merge defaults input) options :: rest)
  ∧ driver_requests (log (createOne c input options w).2) =
      driver_requests (log w)
        ++ [InsertOne name (default_merge defaults input) options].
Proof.
  rewrite createOne_unfold. cbv zeta.
  destruct (Mongo.insertOne _ _ _ _ _) as [[r|e] db1].
  - destruct (truthy (newDocument r)).
    + destruct (hooks ≫= postCreateHook) as [hook|].
      * destruct (hook _ _) as [[[]|e] db2]; simpl;
          (split; [by eexists|]);
          by rewrite driver_requests_app.
      * simpl. split; [by eexists|]. by rewrite driver_requests_app.
    + simpl. split; [by eexists|]. by rewrite driver_requests_app.
  - simpl. split; [by eexists|]. by rewrite driver_requests_app.
Qed.

(** C3: when a post-create hook is configured and [createOne] returns a
    document, the hook was invoked exactly once, on that very document, after
    the insert, and [createOne] returned only once the hook had completed (the
    state it returns in is the one the hook left). [createMany] invokes no
    hook, whatever the configuration and the inputs. *)
Theorem createOne_hook_once_createMany_none :
  (∀ hook input options w doc w',
      hooks ≫= postCreateHook = Some hook →
      createOne c input options w = (Fulfilled doc, w') →
      hook_calls (log w') = hook_calls (log w) ++ [(PostCreate, doc)]
      ∧ ∃ r db1,
          Mongo.insertOne database name (default_merge defaults input) options
            (db w) = (Fulfilled r, db1)
          ∧ hook doc db1 = (Fulfilled (), db w'))
  ∧ (∀ inputs options w,
        hook_calls (log (createMany c inputs options w).2) = hook_calls (log w)).
Proof.
  split.
  - intros hook input options w doc w' Hhook. rewrite createOne_unfold, Hhook.
    cbv zeta.
    destruct (Mongo.insertOne _ _ _ _ _) as [[r|e] db1] eqn:Hinsert; [|done].
    destruct (truthy (newDocument r)); [|done].
    destruct (hook _ _) as [[[]|e] db2] eqn:Hrun; [|done].
    intros [= <- <-]. split; [by apply hooked_hook_calls|].
    by exists r, db1.
  - intros inputs options w. rewrite createMany_unfold.
    by apply forwarded_hook_calls.
Qed.

(** C4: when the write of [createOne], [updateOne] or [deleteOne] has
    succeeded and the configured hook then fails, the operation fails with
    the hook's failure; the database is left as the hook left the committed
    state, and the only request made to the driver is the write itself: no
    undoing request follows. *)
Theorem hook_failure_after_commit :
  (∀ hook input options w r db1 e db2,
      hooks ≫= postCreateHook = Some hook →
      Mongo.insertOne database name (default_merge defaults input) options
        (db w) = (Fulfilled r, db1) →
      truthy (newDocument r) = true →
      hook (newDocument r) db1 = (Rejected e, db2) →
      let ev := InsertOne name (default_merge defaults input) options in
      createOne c input options w =
        (Rejected (HookRejection e), hooked w ev PostCreate (newDocument r) db2)
      ∧ db (createOne c input options w).2 = db2
      ∧ driver_requests (log (createOne c input options w).2) =
          driver_requests (log w) ++ [ev])
  ∧ (∀ hook query update options w r db1 e db2,
        hooks ≫= postUpdateHook = Some hook →
        Mongo.findOneAndUpdate database name query (dollar_set update) options
          (db w) = (Fulfilled r, db1) →
        truthy (Mongo.value r) = true →
        hook (Mongo.value r) db1 = (Rejected e, db2) →
        let ev := FindOneAndUpdate name query (dollar_set update) options in
        updateOne c query update options w =
          (Rejected (HookRejection e), hooked w ev PostUpdate (Mongo.value r) db2)
        ∧ db (updateOne c query update options w).2 = db2
        ∧ driver_requests (log (updateOne c query update options w).2) =
            driver_requests (log w) ++ [ev])
  ∧ (∀ hook query options w r db1 e db2,
        hooks ≫= postDeleteHook = Some hook →
        Mongo.findOneAndDelete database name query options (db w) =
          (Fulfilled r, db1) →
        truthy (Mongo.value r) = true →
        hook (Mongo.value r) db1 = (Rejected e, db2) →
        let ev := FindOneAndDelete name query options in
        deleteOne c query options w =
          (Rejected (HookRejection e), hooked w ev PostDelete (Mongo.value r) db2)
        ∧ db (deleteOne c query options w).2 = db2
        ∧ driver_requests (log (deleteOne c query options w).2) =
            driver_requests (log w) ++ [ev]).
Proof.
  split_and!.
  - intros hook input options w r db1 e db2 Hhook Hinsert Hdoc Hrun ev.
    rewrite createOne_unfold, Hhook. cbv zeta. rewrite Hinsert, Hdoc, Hrun.
    split_and!; [done..|]. simpl. by rewrite driver_requests_app.
  - intros hook query update options w r db1 e db2 Hhook Hfind Hdoc Hrun ev.
    rewrite updateOne_unfold, Hhook, Hfind. unfold found_then_hook.
    cbv zeta. rewrite Hdoc, Hrun.
    split_and!; [done..|]. simpl. by rewrite driver_requests_app.
  - intros hook query options w r db1 e db2 Hhook Hfind Hdoc Hrun ev.
    rewrite deleteOne_unfold, Hhook, Hfind. unfold found_then_hook.
    cbv zeta. rewrite Hdoc, Hrun.
    split_and!; [done..|]. simpl. by rewrite driver_requests_app.
Qed.

(** C5: when the driver finds no document for the query ([findOne] settles
    with a falsy value, [findOneAndUpdate] and [findOneAndDelete] with
    [value: null]), [readOne], [updateOne] and [deleteOne] return [null]
    without throwing, and [updateOne] and [deleteOne] invoke no hook even
    when one is configured. *)
Theorem not_found_returns_null :
  (∀ query options w r db1,
      Mongo.findOne database name query options (db w) = (Fulfilled r, db1) →
      truthy r = false →
      readOne c query options w =
        (Fulfilled VNull, requested w (FindOne name query options) db1))
  ∧ (∀ query update options w r db1,
        Mongo.findOneAndUpdate database name query (dollar_set update) options
          (db w) = (Fulfilled r, db1) →
        Mongo.value r = VNull →
        updateOne c query update options w =
          (Fulfilled VNull,
           requested w (FindOneAndUpdate name query (dollar_set update) options)
             db1)
        ∧ hook_calls (log (updateOne c query update options w).2) =
            hook_calls (log w))
  ∧ (∀ query options w r db1,
        Mongo.findOneAndDelete database name query options (db w) =
          (Fulfilled r, db1) →
        Mongo.value r = VNull →
        deleteOne c query options w =
          (Fulfilled VNull,
           requested w (FindOneAndDelete name query options) db1)
        ∧ hook_calls (log (deleteOne c query options w).2) =
            hook_calls (log w)).
Proof.
  split_and!.
  - intros query options w r db1 Hfind Hr.
    rewrite readOne_unfold, Hfind. unfold forwarded, js_or. by rewrite Hr.
  - intros query update options w r db1 Hfind Hr.
    rewrite updateOne_unfold, Hfind. unfold found_then_hook.
    cbv zeta. rewrite Hr. simpl. split; [done|].
    by apply (requested_hook_calls w _ db1).
  - intros query options w r db1 Hfind Hr.
    rewrite deleteOne_unfold, Hfind. unfold found_then_hook.
    cbv zeta. rewrite Hr. simpl. split; [done|].
    by apply (requested_hook_calls w _ db1).
Qed.

(** C9: whatever the driver's [findOne] settles with, [readOne] returns that
    value when it is truthy and [null] when it is falsy, [undefined]
    included: its result is never [undefined] nor any falsy value other than
    [null]. *)
Theorem readOne_normalizes_falsy query options w :
  match Mongo.findOne database name query options (db w) with
  | (Fulfilled r, db1) =>
      ∃ v,
        readOne c query options w =
          (Fulfilled v, requested w (FindOne name query options) db1)
        ∧ (if truthy r then v = r else v = VNull)
        ∧ v ≠ VUndefined
        ∧ (truthy v = true ∨ v = VNull)
  | (Rejected e, db1) =>
      readOne c query options w =
        (Rejected (DriverRejection e),
         requested w (FindOne name query options) db1)
  end.
Proof.
  rewrite readOne_unfold.
  destruct (Mongo.findOne _ _ _ _ _) as [[r|e] db1]; [|done].
  exists (js_or r VNull). unfold forwarded, js_or.
  destruct (truthy r) eqn:Hr.
  - destruct (truthy_not_sentinel _ Hr). split_and!; [done..|by left].
  - split_and!; [done..|by right].
Qed.

End operations.

(** C8: [createCollection] returns the closure over the database handle,
    the name, the defaults and the hooks, and does nothing else: the state
    it returns in is the state it was called in, so the database is unchanged
    and no request has been sent to the driver. *)
Theorem createCollection_is_pure {DB Query} (database : Mongo.Db DB Query)
    (name : string) (config : option (CollectionConfig DB))
    (w : world DB Query) :
  createCollectionFactory database name config w =
    (Fulfilled
       (collection database name (config ≫= defaults) (config ≫= hooks)), w)
  ∧ db (createCollectionFactory database name config w).2 = db w
  ∧ log (createCollectionFactory database name config w).2 = log w.
Proof. by destruct config as [[d h]|]. Qed.

(** ** The in-memory store *)

Lemma modify_first_no_match (filter : Mem.Query) f (l : list document) :
  Forall (λ d, filter d = false) l → Mem.modify_first filter f l = (None, l).
Proof.
  induction 1 as [|d l Hd _ IH]; simpl; [done|]. by rewrite Hd, IH.
Qed.

Lemma modify_first_match (filter : Mem.Query) f (l1 l2 : list document) d :
  Forall (λ d, filter d = false) l1 →
  filter d = true →
  Mem.modify_first filter f (l1 ++ d :: l2) =
    (Some d, l1 ++ match f d with Some d' => d' :: l2 | None => l2 end).
Proof.
  intros Hl1 Hd. induction Hl1 as [|d1 l1 Hd1 _ IH]; simpl.
  - by rewrite Hd.
  - by rewrite Hd1, IH.
Qed.

Lemma documents_set_documents name l s :
  Mem.documents name (Mem.set_documents name l s) = l.
Proof.
  unfold Mem.documents, Mem.set_documents; simpl. by rewrite lookup_insert_eq.
Qed.

Lemma newDocument_truthy (r : Mongo.InsertOneWriteOpResult) :
  truthy (newDocument r) = true ↔
  ∃ doc rest,
    Mongo.ops r = Some (doc :: rest)
    ∧ Mongo.ok (Mongo.result r) ≠ 0%Z
    ∧ truthy doc = true
    ∧ newDocument r = doc.
Proof.
  unfold newDocument. destruct (Mongo.ops r) as [[|doc rest]|]; simpl.
  - destruct (Mongo.ok _ =? 0)%Z; simpl; split; try done;
      by intros (? & ? & ? & _).
  - destruct (Z.eqb_spec (Mongo.ok (Mongo.result r)) 0) as [Hok|Hok]; simpl.
    + split; [done|]. by intros (? & ? & _ & ? & _).
    + split.
      * intros Hdoc. by exists doc, rest.
      * by intros (? & ? & [= <- <-] & _ & ? & _).
  - split; [done|]. by intros (? & ? & ? & _).
Qed.

Lemma documents_set_documents_ne name other l s :
  other ≠ name →
  Mem.documents other (Mem.set_documents name l s) = Mem.documents other s.
Proof.
  intros Hne. unfold Mem.documents, Mem.set_documents; simpl.
  by rewrite lookup_insert_ne.
Qed.

Lemma mem_insert_document name doc s d s' :
  Mem.insert_document name doc s = (Fulfilled d, s') →
  d = Mem.prepare (Mem.nextId s) doc
  ∧ Mem.documents name s' = Mem.documents name s ++ [d]
  ∧ ∀ other, other ≠ name → Mem.documents other s' = Mem.documents other s.
Proof.
  unfold Mem.insert_document. destruct (Mem.has_id _ _); [done|].
  intros [= <- <-]. split_and!; [done| |].
  - unfold Mem.documents at 1; simpl. by rewrite lookup_insert_eq.
  - intros other Hne. unfold Mem.documents; simpl.
    by rewrite lookup_insert_ne.
Qed.

Lemma mem_insert_document_rejected name doc s e s' :
  Mem.insert_document name doc s = (Rejected e, s') → s' = s.
Proof.
  unfold Mem.insert_document. destruct (Mem.has_id _ _); [|done].
  by intros [= _ <-].
Qed.

Lemma prepare_has_id (id : N) (doc : document) :
  ∃ v, Mem.prepare id doc !! "_id" = Some v ∧ v ≠ VNull ∧ v ≠ VUndefined.
Proof.
  unfold Mem.prepare. destruct (doc !! "_id") as [v|] eqn:Hid.
  - destruct v;
      try (exists (VObjectId id); by rewrite lookup_insert_eq);
      by eexists.
  - exists (VObjectId id). by rewrite lookup_insert_eq.
Qed.

Lemma mem_insert_documents_fulfilled name docs s ids s' :
  Mem.insert_documents name docs s = (Fulfilled ids, s') →
  ∃ ds,
    Mem.documents name s' = Mem.documents name s ++ ds
    ∧ ids = (λ d, default VUndefined (d !! "_id")) <$> ds
    ∧ Forall2 (λ d doc, ∃ id, d = Mem.prepare id doc) ds docs.
Proof.
  revert s ids s'. induction docs as [|doc docs IH]; intros s ids s'; simpl.
  - intros [= <- <-]. exists []. by rewrite (right_id_L [] (++)).
  - destruct (Mem.insert_document name doc s) as [[d|e] s1] eqn:Hinsert;
      [|done].
    destruct (mem_insert_document _ _ _ _ _ Hinsert) as (Hd & Hdocs & _).
    destruct (Mem.insert_documents name docs s1) as [[ids1|e] s2] eqn:Hrest;
      [|done].
    intros [= <- <-].
    destruct (IH _ _ _ Hrest) as (ds & Hds & Hids & Hall).
    exists (d :: ds). split_and!.
    + by rewrite Hds, Hdocs, <- (assoc_L (++)).
    + by rewrite Hids.
    + constructor; [by eexists|done].
Qed.

(** When no document of the collection satisfies the filter, the store
    replies as the driver does: [null] from [findOne], [value: null] from
    [findOneAndUpdate] and [findOneAndDelete], and the state is unchanged. *)
Lemma mem_no_match name (filter : Mem.Query) update options s :
  Forall (λ d, filter d = false) (Mem.documents name s) →
  Mem.findOne name filter options s = (Fulfilled VNull, s)
  ∧ Mem.findOneAndUpdate name filter update options s =
      (Fulfilled {| Mongo.value := VNull |}, s)
  ∧ Mem.findOneAndDelete name filter options s =
      (Fulfilled {| Mongo.value := VNull |}, s).
Proof.
  intros Hnone. split_and!.
  - unfold Mem.findOne.
    replace (List.filter filter (Mem.documents name s)) with (@nil document);
      [done|].
    induction Hnone as [|d l Hd _ IH]; simpl; [done|]. by rewrite Hd.
  - unfold Mem.findOneAndUpdate. by rewrite modify_first_no_match.
  - unfold Mem.findOneAndDelete. by rewrite modify_first_no_match.
Qed.

(** [findOneAndUpdate] on the store: the first matching document is
    updated in place, and the reply holds it as it was before the update
    unless the options say [returnOriginal: false]. *)
Lemma mem_findOneAndUpdate_match name (filter : Mem.Query) update options s
    (l1 l2 : list document) d :
  Mem.documents name s = l1 ++ d :: l2 →
  Forall (λ d, filter d = false) l1 →
  filter d = true →
  Mem.findOneAndUpdate name filter (dollar_set update) options s =
    (Fulfilled
       {| Mongo.value :=
            VObj (if Mem.returnOriginal options then d else update ∪ d) |},
     Mem.set_documents name (l1 ++ (update ∪ d) :: l2) s).
Proof.
  intros Hdocs Hl1 Hd. unfold Mem.findOneAndUpdate.
  by rewrite Hdocs, modify_first_match.
Qed.

(** X14: [updateOne] with the options left out, on a store where the filter
    selects a document: the store holds the updated document, the caller
    receives the document as it was before the update. *)
Lemma updateOne_default_options_pre_image name defaults (filter : Mem.Query)
    update (w : world Mem.DB Mem.Query) (l1 l2 : list document) d :
  Mem.documents name (db w) = l1 ++ d :: l2 →
  Forall (λ d, filter d = false) l1 →
  filter d = true →
  let run := updateOne (collection Mem.database name defaults None)
               filter update None w in
  run.1 = Fulfilled (VObj d)
  ∧ Mem.documents name (db run.2) = l1 ++ (update ∪ d) :: l2.
Proof.
  intros Hdocs Hl1 Hd run. subst run. rewrite updateOne_unfold.
  cbn [Mongo.findOneAndUpdate Mem.database].
  rewrite (mem_findOneAndUpdate_match _ _ _ _ _ l1 l2 d) by done.
  simpl. split; [done|]. apply documents_set_documents.
Qed.

(** X13: With [returnOriginal: false] in the options the caller receives the
    updated document. *)
Lemma updateOne_returnOriginal_false_post_image name defaults
    (filter : Mem.Query) update (w : world Mem.DB Mem.Query)
    (l1 l2 : list document) d :
  Mem.documents name (db w) = l1 ++ d :: l2 →
  Forall (λ d, filter d = false) l1 →
  filter d = true →
  let run := updateOne (collection Mem.database name defaults None)
               filter update (Some {["returnOriginal" := VBool false]}) w in
  run.1 = Fulfilled (VObj (update ∪ d))
  ∧ Mem.documents name (db run.2) = l1 ++ (update ∪ d) :: l2.
Proof.
  intros Hdocs Hl1 Hd run. subst run. rewrite updateOne_unfold.
  cbn [Mongo.findOneAndUpdate Mem.database].
  rewrite (mem_findOneAndUpdate_match _ _ _ _ _ l1 l2 d) by done.
  simpl. split; [done|]. apply documents_set_documents.
Qed.

(** C1, on the code: a store holding Yoda, not an administrator;
    [updateOne({name: "Yoda"}, {isAdmin: true})] with the options left out.
    The store then holds Yoda as an administrator, and the call returns Yoda
    as it was before the update. *)
Theorem updateOne_returns_pre_image :
  let w := Users.started [Users.yoda] in
  let run := updateOne (Users.users None) (Users.named "Yoda")
               {["isAdmin" := VBool true]} None w in
  run.1 = Fulfilled (VObj Users.yoda)
  ∧ Mem.documents Users.name (db run.2) = [Users.yoda_admin]
  ∧ run.1 ≠ Fulfilled (VObj Users.yoda_admin).
Proof.
  intros w run.
  assert (Hrun : run.1 = Fulfilled (VObj Users.yoda))
    by (vm_compute; reflexivity).
  split_and!.
  - exact Hrun.
  - vm_compute; reflexivity.
  - rewrite Hrun. intros Heq. vm_compute in Heq. discriminate Heq.
Qed.

(** The document the store reports as created carries an [_id]. *)
Lemma mem_created_document_has_id name doc options s r s' :
  Mem.insertOne name doc options s = (Fulfilled r, s') →
  ∃ d id, newDocument r = VObj d ∧ d !! "_id" = Some id
          ∧ id ≠ VNull ∧ id ≠ VUndefined.
Proof.
  unfold Mem.insertOne, Mem.insert_document.
  destruct (Mem.has_id _ _); [done|]. intros [= <- _].
  exists (Mem.prepare (Mem.nextId s) doc). unfold Mem.prepare.
  destruct (doc !! "_id") as [id|] eqn:Hid.
  - destruct id;
      try (exists (VObjectId (Mem.nextId s)); rewrite lookup_insert_eq; done);
      eexists; (split_and!; [done|exact Hid|done..]).
  - exists (VObjectId (Mem.nextId s)). by rewrite lookup_insert_eq.
Qed.

(** C7: [updateMany] returns the [matchedCount] of the driver's reply and
    [deleteMany] its [deletedCount], and neither invokes a hook, whatever
    hooks are configured. On the store these counts are the number of
    documents the filter selects; the number of documents an update really
    changed is not what [updateMany] returns. *)
Theorem bulk_operations_count_matched_no_hook :
  (∀ DB Query (database : Mongo.Db DB Query) name defaults hooks
     query update options (w : world DB Query),
      let c := collection database name defaults hooks in
      (updateMany c query update options w).1 =
        match (Mongo.updateMany database name query (dollar_set update) options
                 (db w)).1 with
        | Fulfilled r => Fulfilled (Mongo.matchedCount r)
        | Rejected e => Rejected (DriverRejection e)
        end
      ∧ hook_calls (log (updateMany c query update options w).2) =
          hook_calls (log w)
      ∧ (deleteMany c query options w).1 =
          match (Mongo.deleteMany database name query options (db w)).1 with
          | Fulfilled r => Fulfilled (Mongo.deletedCount r)
          | Rejected e => Rejected (DriverRejection e)
          end
      ∧ hook_calls (log (deleteMany c query options w).2) = hook_calls (log w))
  ∧ (∀ name defaults hooks (query : Mem.Query) update options
       (w : world Mem.DB Mem.Query),
        let c := collection Mem.database name defaults hooks in
        let matched := List.filter query (Mem.documents name (db w)) in
        (updateMany c query update options w).1 = Fulfilled (length matched)
        ∧ (deleteMany c query options w).1 = Fulfilled (length matched))
  ∧ (let w := Users.started [Users.yoda; Users.vader] in
     let everyone : Mem.Query := λ _, true in
     let promote : document := {["isAdmin" := VBool true]} in
     (updateMany (Users.users (Some Users.audit_hooks)) everyone promote None
        w).1 = Fulfilled 2%nat
     ∧ (Mem.updateMany Users.name everyone (dollar_set promote) None (db w)).1 =
         Fulfilled {| Mongo.matchedCount := 2; Mongo.modifiedCount := 1 |}).
Proof.
  split_and!.
  - intros DB Query database name defaults hooks query update options w c.
    subst c. rewrite updateMany_unfold, deleteMany_unfold.
    split_and!.
    + by destruct (Mongo.updateMany _ _ _ _ _ _) as [[r|e] db1].
    + by apply forwarded_hook_calls.
    + by destruct (Mongo.deleteMany _ _ _ _ _) as [[r|e] db1].
    + by apply forwarded_hook_calls.
  - intros name defaults hooks query update options w c matched.
    subst c. by rewrite updateMany_unfold, deleteMany_unfold.
  - by vm_compute.
Qed.

(** ** What the driver receives *)

Section recorder.
Context {S Query : Type}.
Context (inner : Mongo.Db S Query) (name : string).
Context (defaults : option document) (hooks : option (Hooks S)).

Local Abbreviation rc :=
  (collection (Recorder.database inner) name defaults
     (Recorder.hooks Query <$> hooks)).

Lemma recorder_forwarded {A B} (w : world (Recorder.DB S Query) Query) ev ev'
    (f : A → B) (op : Mongo.request S A) :
  Recorder.received (forwarded w ev f (Recorder.record ev' op (db w))).2 =
    Recorder.received w ++ [ev'].
Proof.
  unfold Recorder.received, Recorder.record, forwarded.
  by destruct (op (db w).1) as [[a|e] s1].
Qed.

Lemma recorder_found_then_hook (w : world (Recorder.DB S Query) Query) ev ev'
    kind (hook : option (Hook S))
    (op : Mongo.request S Mongo.FindAndModifyWriteOpResult) :
  Recorder.received
    (found_then_hook w ev kind (Recorder.hook Query <$> hook)
       (Recorder.record ev' op (db w))).2 =
    Recorder.received w ++ [ev'].
Proof.
  unfold Recorder.received, Recorder.record, found_then_hook.
  destruct (op (db w).1) as [[r|e] s1]; [|done]. cbv zeta.
  destruct (truthy (Mongo.value r)); [|done].
  destruct hook as [hook|]; [|done]. simpl. unfold Recorder.hook. simpl.
  by destruct (hook _ _) as [[[]|e] s2].
Qed.

Lemma recorder_createOne input options
    (w : world (Recorder.DB S Query) Query) :
  Recorder.received (createOne rc input options w).2 =
    Recorder.received w
      ++ [InsertOne name (default_merge defaults input) options].
Proof.
  rewrite createOne_unfold. cbv zeta.
  cbn [Mongo.insertOne Recorder.database].
  unfold Recorder.received, Recorder.record.
  destruct (Mongo.insertOne inner _ _ _ _) as [[r|e] s1]; [|done].
  destruct (truthy (newDocument r)); [|done].
  destruct hooks as [[[hook|] ? ?]|]; [|done..]. simpl.
  unfold Recorder.hook. simpl.
  by destruct (hook _ _) as [[[]|e] s2].
Qed.

Lemma recorder_createMany inputs options
    (w : world (Recorder.DB S Query) Query) :
  Recorder.received (createMany rc inputs options w).2 =
    Recorder.received w
      ++ [InsertMany name (default_merge defaults <$> inputs) options].
Proof. rewrite createMany_unfold. apply recorder_forwarded. Qed.

Lemma recorder_updateOne query update options
    (w : world (Recorder.DB S Query) Query) :
  Recorder.received (updateOne rc query update options w).2 =
    Recorder.received w
      ++ [FindOneAndUpdate name query (dollar_set update) options].
Proof.
  rewrite updateOne_unfold.
  replace ((Recorder.hooks Query <$> hooks) ≫= postUpdateHook)
    with (Recorder.hook Query <$> (hooks ≫= postUpdateHook))
    by (by destruct hooks as [[]|]).
  apply recorder_found_then_hook.
Qed.

Lemma recorder_deleteOne query options
    (w : world (Recorder.DB S Query) Query) :
  Recorder.received (deleteOne rc query options w).2 =
    Recorder.received w ++ [FindOneAndDelete name query options].
Proof.
  rewrite deleteOne_unfold.
  replace ((Recorder.hooks Query <$> hooks) ≫= postDeleteHook)
    with (Recorder.hook Query <$> (hooks ≫= postDeleteHook))
    by (by destruct hooks as [[]|]).
  apply recorder_found_then_hook.
Qed.

End recorder.

(** ** The document written, and the document created *)

Lemma prepare_lookup_ne (id : N) (doc : document) (k : string) :
  k ≠ "_id" → Mem.prepare id doc !! k = doc !! k.
Proof.
  intros Hk. unfold Mem.prepare.
  destruct (doc !! "_id") as [[]|]; try done; by rewrite lookup_insert_ne.
Qed.


(** [createOne] on the store, when it returns: the document returned is the
    one the store inserted. *)
Lemma mem_createOne_fulfilled name defaults hooks input options
    (w w' : world Mem.DB Mem.Query) v :
  createOne (collection Mem.database name defaults hooks) input options w =
    (Fulfilled v, w') →
  let d := Mem.prepare (Mem.nextId (db w)) (default_merge defaults input) in
  v = VObj d
  ∧ ∃ s1,
      Mem.insert_document name (default_merge defaults input) (db w) =
        (Fulfilled d, s1)
      ∧ (hooks ≫= postCreateHook = None → db w' = s1).
Proof.
  rewrite createOne_unfold. cbv zeta.
  cbn [Mongo.insertOne Mem.database]. unfold Mem.insertOne.
  destruct (Mem.insert_document _ _ _) as [[d|e] s1] eqn:Hinsert; [|done].
  destruct (mem_insert_document _ _ _ _ _ Hinsert) as (-> & _).
  cbn [newDocument Mongo.ops Mongo.result Mongo.ok truthy first_element].
  simpl.
  destruct (hooks ≫= postCreateHook) as [hook|].
  - destruct (hook _ _) as [[[]|e] s2]; [|done].
    intros [= <- <-]. split; [done|]. by exists s1.
  - intros [= <- <-]. split; [done|]. by exists s1.
Qed.

(** C2: whatever Defaults are configured and whatever the input, the one
    document [createOne] sends the driver, and each element of the array
    [createMany] sends it, is the default-merge of the specification: a key
    absent from the input has the value Defaults give it, a key present in
    the input has the input's value, and without Defaults the input is sent
    as it is. What [createOne] and [createMany] return comes from the driver's
    reply to that very request, and on the store the documents written are
    these documents, each with its [_id]. *)
Theorem create_writes_default_merge :
  (∀ S Query (inner : Mongo.Db S Query) name defaults hooks input options
     (w : world (Recorder.DB S Query) Query),
      let c := collection (Recorder.database inner) name defaults
                 (Recorder.hooks Query <$> hooks) in
      Recorder.received (createOne c input options w).2 =
        Recorder.received w
          ++ [InsertOne name (default_merge defaults input) options])
  ∧ (∀ S Query (inner : Mongo.Db S Query) name defaults hooks inputs options
       (w : world (Recorder.DB S Query) Query),
        let c := collection (Recorder.database inner) name defaults
                   (Recorder.hooks Query <$> hooks) in
        Recorder.received (createMany c inputs options w).2 =
          Recorder.received w
            ++ [InsertMany name (default_merge defaults <$> inputs) options])
  ∧ (∀ defaults input k,
        default_merge defaults input !! k =
          match input !! k with
          | Some v => Some v
          | None => defaults ≫= (λ d, d !! k)
          end)
  ∧ (∀ S Query (inner : Mongo.Db S Query) name hooks input inputs options
       (w : world (Recorder.DB S Query) Query),
        let c := collection (Recorder.database inner) name None
                   (Recorder.hooks Query <$> hooks) in
        Recorder.received (createOne c input options w).2 =
          Recorder.received w ++ [InsertOne name input options]
        ∧ Recorder.received (createMany c inputs options w).2 =
            Recorder.received w ++ [InsertMany name inputs options])
  ∧ (∀ DB Query (database : Mongo.Db DB Query) name defaults hooks input
       options (w : world DB Query) r db1,
        Mongo.insertOne database name (default_merge defaults input) options
          (db w) = (Fulfilled r, db1) →
        truthy (newDocument r) = true →
        hooks ≫= postCreateHook = None →
        createOne (collection database name defaults hooks) input options w =
          (Fulfilled (newDocument r),
           requested w
             (InsertOne name (default_merge defaults input) options) db1))
  ∧ (∀ DB Query (database : Mongo.Db DB Query) name defaults hooks inputs
       options (w : world DB Query) r db1,
        Mongo.insertMany database name (default_merge defaults <$> inputs)
          options (db w) = (Fulfilled r, db1) →
        createMany (collection database name defaults hooks) inputs options w =
          (Fulfilled (Mongo.insertedIds r),
           requested w
             (InsertMany name (default_merge defaults <$> inputs) options)
             db1))
  ∧ (∀ name defaults input options (w w1 : world Mem.DB Mem.Query) doc,
        createOne (collection Mem.database name defaults None) input options w
          = (Fulfilled doc, w1) →
        let d :=
          Mem.prepare (Mem.nextId (db w)) (default_merge defaults input) in
        doc = VObj d
        ∧ Mem.documents name (db w1) = Mem.documents name (db w) ++ [d]
        ∧ ∀ k, k ≠ "_id" →
            d !! k = match input !! k with
                     | Some v => Some v
                     | None => defaults ≫= (λ d, d !! k)
                     end)
  ∧ (∀ name defaults hooks inputs options (w w1 : world Mem.DB Mem.Query) ids,
        createMany (collection Mem.database name defaults hooks) inputs
          options w = (Fulfilled ids, w1) →
        ∃ ds,
          Mem.documents name (db w1) = Mem.documents name (db w) ++ ds
          ∧ Forall2 (λ d input,
                       ∃ id, d = Mem.prepare id (default_merge defaults input))
              ds inputs).
Proof.
  split_and!.
  - intros S Query inner name defaults hooks input options w.
    apply recorder_createOne.
  - intros S Query inner name defaults hooks inputs options w.
    apply recorder_createMany.
  - intros defaults input k. apply default_merge_lookup.
  - intros S Query inner name hooks input inputs options w. cbv zeta. split.
    + apply (recorder_createOne inner name None hooks).
    + rewrite (recorder_createMany inner name None hooks). simpl.
      by rewrite list_fmap_id.
  - intros DB Query database name defaults hooks input options w r db1
      Hinsert Hdoc Hhook.
    rewrite createOne_unfold. cbv zeta. by rewrite Hinsert, Hdoc, Hhook.
  - intros DB Query database name defaults hooks inputs options w r db1
      Hinsert.
    rewrite createMany_unfold. cbv zeta. by rewrite Hinsert.
  - intros name defaults input options w w1 doc Hcreate d.
    destruct (mem_createOne_fulfilled _ _ _ _ _ _ _ _ Hcreate)
      as (Hdoc & s1 & Hinsert & Hdb).
    destruct (mem_insert_document _ _ _ _ _ Hinsert) as (_ & Hdocs & _).
    rewrite (Hdb eq_refl). split_and!; [done..|].
    intros k Hk. subst d.
    by rewrite prepare_lookup_ne, default_merge_lookup.
  - intros name defaults hooks inputs options w w1 ids.
    rewrite createMany_unfold. cbv zeta.
    cbn [Mongo.insertMany Mem.database]. unfold Mem.insertMany.
    destruct (Mem.insert_documents _ _ _) as [[ids'|e] s1] eqn:Hrun; [|done].
    unfold forwarded. intros [= <- <-].
    destruct (mem_insert_documents_fulfilled _ _ _ _ _ Hrun)
      as (ds & Hdocs & _ & Hall).
    exists ds. split; [done|]. by apply Forall2_fmap_r in Hall.
Qed.


(** C10: an input key whose value is [undefined] is present in the input,
    so it overrides the default: in the document [createOne] sends the
    driver, and in the corresponding element of the array [createMany] sends
    it, that key holds [undefined], whatever Defaults hold for it. On the
    store the document created carries [undefined] for that key, both as
    [createOne] returns it and as it is stored, and so does the stored
    document of each input of [createMany] (for every key but [_id], which
    the store gives a value when it is [undefined]). *)
Theorem undefined_input_overrides_default (k : string) :
  (∀ S Query (inner : Mongo.Db S Query) name defaults hooks input options
     (w : world (Recorder.DB S Query) Query),
      input !! k = Some VUndefined →
      let c := collection (Recorder.database inner) name defaults
                 (Recorder.hooks Query <$> hooks) in
      ∃ doc,
        Recorder.received (createOne c input options w).2 =
          Recorder.received w ++ [InsertOne name doc options]
        ∧ doc !! k = Some VUndefined)
  ∧ (∀ S Query (inner : Mongo.Db S Query) name defaults hooks inputs options
       (w : world (Recorder.DB S Query) Query) (i : nat) input,
        inputs !! i = Some input →
        input !! k = Some VUndefined →
        let c := collection (Recorder.database inner) name defaults
                   (Recorder.hooks Query <$> hooks) in
        ∃ docs doc,
          Recorder.received (createMany c inputs options w).2 =
            Recorder.received w ++ [InsertMany name docs options]
          ∧ docs !! i = Some doc
          ∧ doc !! k = Some VUndefined)
  ∧ (∀ name defaults input options (w w1 : world Mem.DB Mem.Query) doc,
        k ≠ "_id" →
        input !! k = Some VUndefined →
        createOne (collection Mem.database name defaults None) input options w
          = (Fulfilled doc, w1) →
        ∃ d,
          doc = VObj d
          ∧ d !! k = Some VUndefined
          ∧ Mem.documents name (db w1) = Mem.documents name (db w) ++ [d])
  ∧ (∀ name defaults hooks inputs options (w w1 : world Mem.DB Mem.Query)
       ids (i : nat) input,
        k ≠ "_id" →
        inputs !! i = Some input →
        input !! k = Some VUndefined →
        createMany (collection Mem.database name defaults hooks) inputs
          options w = (Fulfilled ids, w1) →
        ∃ d,
          Mem.documents name (db w1)
            !! (length (Mem.documents name (db w)) + i)%nat = Some d
          ∧ d !! k = Some VUndefined).
Proof.
  split_and!.
  - intros S Query inner name defaults hooks input options w Hk c. subst c.
    exists (default_merge defaults input). split.
    + apply recorder_createOne.
    + by rewrite default_merge_lookup, Hk.
  - intros S Query inner name defaults hooks inputs options w i input Hi Hk c.
    subst c.
    exists (default_merge defaults <$> inputs), (default_merge defaults input).
    split_and!.
    + apply recorder_createMany.
    + by rewrite list_lookup_fmap, Hi.
    + by rewrite default_merge_lookup, Hk.
  - intros name defaults input options w w1 doc Hid Hk Hcreate.
    destruct (mem_createOne_fulfilled _ _ _ _ _ _ _ _ Hcreate)
      as (Hdoc & s1 & Hinsert & Hdb).
    destruct (mem_insert_document _ _ _ _ _ Hinsert) as (_ & Hdocs & _).
    eexists. split_and!; [exact Hdoc| |by rewrite (Hdb eq_refl)].
    by rewrite prepare_lookup_ne, default_merge_lookup, Hk.
  - intros name defaults hooks inputs options w w1 ids i input Hid Hi Hk.
    rewrite createMany_unfold. cbv zeta.
    cbn [Mongo.insertMany Mem.database]. unfold Mem.insertMany.
    destruct (Mem.insert_documents _ _ _) as [[ids'|e] s1] eqn:Hrun; [|done].
    unfold forwarded. intros [= <- <-].
    destruct (mem_insert_documents_fulfilled _ _ _ _ _ Hrun)
      as (ds & Hdocs & _ & Hall).
    apply Forall2_fmap_r in Hall.
    destruct (Forall2_lookup_r _ _ _ _ _ Hall Hi) as (d & Hd & id & ->).
    exists (Mem.prepare id (default_merge defaults input)). split.
    + cbn [db requested]. rewrite Hdocs, lookup_app_r by lia.
      by replace (length (Mem.documents name (db w)) + i
                  - length (Mem.documents name (db w)))%nat with i by lia.
    + by rewrite prepare_lookup_ne, default_merge_lookup, Hk.
Qed.

(** ** Scenarios of the specification, run on the store *)

(** Property 6: a document read back after its creation is the document
    [createOne] returned. *)
Example create_then_read :
  let c := Users.users None in
  let scenario : M Mem.DB Mem.Query bool :=
    created ← createOne c {["name" := VStr "X"]} None;
    found ← readOne c (Users.named "X") None;
    mret (bool_decide (created = found)) in
  (scenario (Users.started [])).1 = Fulfilled true.
Proof. vm_compute; reflexivity. Qed.

(** Scenario 7, as the code runs it: [updateOne] hands back the document
    as it was before the update; [deleteOne] then shows the update was
    made. *)
Example single_document_scenario :
  let c := Users.users None in
  let scenario : M Mem.DB Mem.Query (jsval * jsval * jsval * jsval) :=
    created ← createOne c Users.yoda_input None;
    updated ← updateOne c (Users.named "Yoda") {["isAdmin" := VBool true]} None;
    deleted ← deleteOne c (Users.named "Yoda") None;
    found ← readOne c (Users.named "Yoda") None;
    mret (created, updated, deleted, found) in
  (scenario (Users.started [])).1 =
    Fulfilled (VObj Users.yoda, VObj Users.yoda, VObj Users.yoda_admin, VNull).
Proof. vm_compute; reflexivity. Qed.

(** Scenario 8: two documents created, read in creation order, updated
    together, deleted together. *)
Example bulk_scenario :
  let c := Users.users None in
  let both : Mem.Query := λ d, Users.named "A" d || Users.named "B" d in
  let scenario :
      M Mem.DB Mem.Query (list jsval * nat * list jsval * nat * list jsval) :=
    a ← createOne c {["name" := VStr "A"]} None;
    b ← createOne c {["name" := VStr "B"]} None;
    read ← readMany c both None;
    updated ← updateMany c both {["flag" := VBool true]} None;
    flagged ← readMany c both None;
    deleted ← deleteMany c both None;
    left ← readMany c both None;
    mret (read, updated, flagged, deleted, left) in
  (scenario (Users.started [])).1 =
    Fulfilled
      ([VObj {["_id" := VObjectId 0; "name" := VStr "A";
               "isAdmin" := VBool false]};
        VObj {["_id" := VObjectId 1; "name" := VStr "B";
               "isAdmin" := VBool false]}],
       2%nat,
       [VObj {["_id" := VObjectId 0; "name" := VStr "A";
               "isAdmin" := VBool false; "flag" := VBool true]};
        VObj {["_id" := VObjectId 1; "name" := VStr "B";
               "isAdmin" := VBool false; "flag" := VBool true]}],
       2%nat, []).
Proof. vm_compute; reflexivity. Qed.

(** ** The properties at concrete inputs *)

(** C3 on the store: a user is created with a hook that records the
    document in an audit collection. *)
Lemma createOne_hook_once_witness :
  let w := Users.started [] in
  let run := createOne (Users.users (Some Users.audit_hooks))
               Users.yoda_input None w in
  run.1 = Fulfilled (VObj Users.yoda)
  ∧ hook_calls (log run.2) = [(PostCreate, VObj Users.yoda)]
  ∧ Mem.documents "audit" (db run.2) =
      [{["_id" := VObjectId 1; "document" := VObj Users.yoda]}].
Proof.
  intros w run.
  assert (Hrun : run = (Fulfilled (VObj Users.yoda), run.2))
    by (vm_compute; reflexivity).
  destruct (proj1 (createOne_hook_once_createMany_none Mem.database Users.name
                     (Some Users.defaults) (Some Users.audit_hooks))
              Users.audit_hook Users.yoda_input None w _ _ eq_refl Hrun)
    as [Hcalls _].
  split_and!.
  - vm_compute; reflexivity.
  - exact Hcalls.
  - vm_compute; reflexivity.
Defined.

(** C4 on the store, with hooks that fail without touching the database:
    each operation fails, and the store holds what it wrote. *)
Lemma hook_failure_after_commit_witness :
  let c := Users.users (Some Users.failing_hooks) in
  let failure := Rejected (HookRejection (VStr "hook failed")) in
  let promote : document := {["isAdmin" := VBool true]} in
  (let run := createOne c Users.yoda_input None (Users.started []) in
   run.1 = failure ∧ Mem.documents Users.name (db run.2) = [Users.yoda])
  ∧ (let run := updateOne c (Users.named "Yoda") promote None
                  (Users.started [Users.yoda]) in
     run.1 = failure
     ∧ Mem.documents Users.name (db run.2) = [Users.yoda_admin])
  ∧ (let run := deleteOne c (Users.named "Yoda") None
                  (Users.started [Users.yoda; Users.vader]) in
     run.1 = failure ∧ Mem.documents Users.name (db run.2) = [Users.vader]).
Proof.
  intros c failure promote.
  destruct (hook_failure_after_commit Mem.database Users.name
              (Some Users.defaults) (Some Users.failing_hooks))
    as (Hcreate & Hupdate & Hdelete).
  split_and!.
  - intros run.
    destruct (Hcreate Users.failing_hook Users.yoda_input None
                (Users.started [])
                {| Mongo.ops := Some [VObj Users.yoda];
                   Mongo.result := {| Mongo.ok := 1; Mongo.n := 1 |} |}
                (Users.store [Users.yoda]) (VStr "hook failed")
                (Users.store [Users.yoda]))
      as (Hrun & Hdb & _).
    + reflexivity.
    + vm_compute; reflexivity.
    + reflexivity.
    + reflexivity.
    + subst run c. unfold Users.users. rewrite Hdb. split.
      * rewrite Hrun. reflexivity.
      * vm_compute; reflexivity.
  - intros run.
    destruct (Hupdate Users.failing_hook (Users.named "Yoda") promote None
                (Users.started [Users.yoda])
                {| Mongo.value := VObj Users.yoda |}
                (Users.store [Users.yoda_admin]) (VStr "hook failed")
                (Users.store [Users.yoda_admin]))
      as (Hrun & Hdb & _).
    + reflexivity.
    + vm_compute; reflexivity.
    + reflexivity.
    + reflexivity.
    + subst run c. unfold Users.users. rewrite Hdb. split.
      * rewrite Hrun. reflexivity.
      * vm_compute; reflexivity.
  - intros run.
    destruct (Hdelete Users.failing_hook (Users.named "Yoda") None
                (Users.started [Users.yoda; Users.vader])
                {| Mongo.value := VObj Users.yoda |}
                {| Mem.collections := {[Users.name := [Users.vader]]};
                   Mem.nextId := 2 |}
                (VStr "hook failed")
                {| Mem.collections := {[Users.name := [Users.vader]]};
                   Mem.nextId := 2 |})
      as (Hrun & Hdb & _).
    + reflexivity.
    + vm_compute; reflexivity.
    + reflexivity.
    + reflexivity.
    + subst run c. unfold Users.users. rewrite Hdb. split.
      * rewrite Hrun. reflexivity.
      * vm_compute; reflexivity.
Defined.

(** C5 on the store: no user is named Yoda. *)
Lemma not_found_returns_null_witness :
  let w := Users.started [Users.vader] in
  let c := Users.users (Some Users.audit_hooks) in
  let promote : document := {["isAdmin" := VBool true]} in
  (readOne c (Users.named "Yoda") None w).1 = Fulfilled VNull
  ∧ (updateOne c (Users.named "Yoda") promote None w).1 = Fulfilled VNull
  ∧ hook_calls (log (updateOne c (Users.named "Yoda") promote None w).2) = []
  ∧ (deleteOne c (Users.named "Yoda") None w).1 = Fulfilled VNull
  ∧ hook_calls (log (deleteOne c (Users.named "Yoda") None w).2) = [].
Proof.
  intros w c promote.
  destruct (not_found_returns_null Mem.database Users.name
              (Some Users.defaults) (Some Users.audit_hooks))
    as (Hread & Hupdate & Hdelete).
  assert (Hnone : Forall (λ d, Users.named "Yoda" d = false)
                    (Mem.documents Users.name (db w))).
  { repeat constructor. }
  destruct (mem_no_match Users.name (Users.named "Yoda") (dollar_set promote)
              None (db w) Hnone) as (Hfind & Hfu & Hfd).
  pose proof (Hread (Users.named "Yoda") None w VNull (db w) Hfind eq_refl)
    as Hr.
  destruct (Hupdate (Users.named "Yoda") promote None w _ (db w) Hfu eq_refl)
    as [Hu Hulog].
  destruct (Hdelete (Users.named "Yoda") None w _ (db w) Hfd eq_refl)
    as [Hd Hdlog].
  subst c. unfold Users.users. rewrite Hulog, Hdlog, Hr, Hu, Hd.
  by split_and!.
Defined.


(** C2 on the store: Yoda created alone, then Yoda and Vader created
    together, in a collection whose default for [isAdmin] is [false]. *)
Lemma create_writes_default_merge_witness :
  let c := Users.users None in
  let w := Users.started [] in
  let vader : document :=
    {["_id" := VObjectId 1; "name" := VStr "Vader"; "isAdmin" := VBool false]} in
  (createOne c Users.yoda_input None w).1 = Fulfilled (VObj Users.yoda)
  ∧ Mem.documents Users.name (db (createOne c Users.yoda_input None w).2) =
      [Users.yoda]
  ∧ Users.yoda !! "isAdmin" = Some (VBool false)
  ∧ Mem.documents Users.name
      (db (createMany c [Users.yoda_input; {["name" := VStr "Vader"]}] None
             w).2) = [Users.yoda; vader].
Proof.
  intros c w vader. subst c. unfold Users.users.
  destruct create_writes_default_merge
    as (_ & _ & _ & _ & Hreply & Hmany & Hstored & Hstored_many).
  assert (Hrun : createOne (collection Mem.database Users.name
                              (Some Users.defaults) None)
                   Users.yoda_input None w =
                 (Fulfilled (VObj Users.yoda),
                  requested w
                    (InsertOne Users.name
                       (default_merge (Some Users.defaults) Users.yoda_input)
                       None)
                    (Users.store [Users.yoda]))).
  { rewrite (Hreply Mem.DB Mem.Query Mem.database Users.name
               (Some Users.defaults) None Users.yoda_input None w
               {| Mongo.ops := Some [VObj Users.yoda];
                  Mongo.result := {| Mongo.ok := 1; Mongo.n := 1 |} |}
               (Users.store [Users.yoda]));
      [reflexivity|vm_compute; reflexivity|reflexivity|reflexivity]. }
  destruct (Hstored Users.name (Some Users.defaults) Users.yoda_input None w
              _ _ Hrun) as (_ & Hdocs & Hkeys).
  assert (Hids : createMany (collection Mem.database Users.name
                               (Some Users.defaults) None)
                   [Users.yoda_input; {["name" := VStr "Vader"]}] None w =
                 (Fulfilled [VObjectId 0; VObjectId 1],
                  (createMany (collection Mem.database Users.name
                                 (Some Users.defaults) None)
                     [Users.yoda_input; {["name" := VStr "Vader"]}] None w).2))
    by (vm_compute; reflexivity).
  destruct (Hstored_many Users.name (Some Users.defaults) None
              [Users.yoda_input; {["name" := VStr "Vader"]}] None w _ _ Hids)
    as (ds & Hmany_docs & _).
  split_and!.
  - rewrite Hrun. reflexivity.
  - rewrite Hrun. cbn [snd]. rewrite Hdocs. vm_compute; reflexivity.
  - vm_compute; reflexivity.
  - vm_compute; reflexivity.
Defined.


(** C10 at a concrete input: [isAdmin] has the default [false] and is given
    as [undefined]. *)
Lemma undefined_input_overrides_default_witness :
  let input : document := {["name" := VStr "Yoda"; "isAdmin" := VUndefined]} in
  let created : document :=
    {["_id" := VObjectId 0; "name" := VStr "Yoda"; "isAdmin" := VUndefined]} in
  let c := Users.users None in
  let w := Users.started [] in
  (createOne c input None w).1 = Fulfilled (VObj created)
  ∧ Mem.documents Users.name (db (createOne c input None w).2) = [created]
  ∧ created !! "isAdmin" = Some VUndefined
  ∧ ∃ d,
      Mem.documents Users.name
        (db (createMany c [Users.yoda_input; input] None w).2) !! 1%nat =
        Some d
      ∧ d !! "isAdmin" = Some VUndefined.
Proof.
  intros input created c w. subst c. unfold Users.users.
  destruct (undefined_input_overrides_default "isAdmin")
    as (_ & _ & Hone & Hmany).
  assert (Hrun : createOne (collection Mem.database Users.name
                              (Some Users.defaults) None) input None w =
                 (Fulfilled (VObj created),
                  (createOne (collection Mem.database Users.name
                                (Some Users.defaults) None) input None w).2))
    by (vm_compute; reflexivity).
  destruct (Hone Users.name (Some Users.defaults) input None w _ (VObj created)
              ltac:(discriminate) eq_refl Hrun)
    as (d & Hd & Hk & Hdocs).
  injection Hd as <-.
  assert (Hids : createMany (collection Mem.database Users.name
                               (Some Users.defaults) None)
                   [Users.yoda_input; input] None w =
                 (Fulfilled [VObjectId 0; VObjectId 1],
                  (createMany (collection Mem.database Users.name
                                 (Some Users.defaults) None)
                     [Users.yoda_input; input] None w).2))
    by (vm_compute; reflexivity).
  split_and!.
  - rewrite Hrun. reflexivity.
  - exact Hdocs.
  - exact Hk.
  - exact (Hmany Users.name (Some Users.defaults) None
             [Users.yoda_input; input] None w _ _ 1%nat input
             ltac:(discriminate) eq_refl eq_refl Hids).
Defined.

(** * Further properties of the accessor *)

(** ** Requests and hooks, for every driver *)

Section requests_and_hooks.
Context {DB Query : Type}.
Context (database : Mongo.Db DB Query) (name : string).
Context (defaults : option document) (hooks : option (Hooks DB)).

Local Abbreviation c := (collection database name defaults hooks).

Lemma requested_requests (w : world DB Query) ev db1 :
  is_hook_call ev = false →
  driver_requests (log (requested w ev db1)) = driver_requests (log w) ++ [ev].
Proof.
  intros Hev. unfold requested; simpl. rewrite driver_requests_app.
  by destruct ev; try discriminate.
Qed.

Lemma hooked_requests (w : world DB Query) ev kind arg db2 :
  is_hook_call ev = false →
  driver_requests (log (hooked w ev kind arg db2)) =
    driver_requests (log w) ++ [ev].
Proof.
  intros Hev. unfold hooked; simpl. rewrite driver_requests_app.
  by destruct ev; try discriminate.
Qed.

Lemma forwarded_requests {A B} (w : world DB Query) ev (f : A → B) reply :
  is_hook_call ev = false →
  driver_requests (log (forwarded w ev f reply).2) =
    driver_requests (log w) ++ [ev].
Proof.
  intros Hev. destruct reply as [[a|e] db1]; by apply requested_requests.
Qed.

Lemma found_then_hook_requests (w : world DB Query) ev kind hook reply :
  is_hook_call ev = false →
  driver_requests (log (found_then_hook w ev kind hook reply).2) =
    driver_requests (log w) ++ [ev].
Proof.
  intros Hev. unfold found_then_hook.
  destruct reply as [[r|e] db1]; [|by apply requested_requests].
  cbv zeta. destruct (truthy (Mongo.value r)); [|by apply requested_requests].
  destruct hook as [hook|]; [|by apply requested_requests].
  destruct (hook _ _) as [[[]|e] db2]; by apply hooked_requests.
Qed.

Lemma found_then_hook_calls (w : world DB Query) ev kind hook reply :
  is_hook_call ev = false →
  hook_calls (log (found_then_hook w ev kind hook reply).2) = hook_calls (log w)
  ∨ ∃ doc,
      hook_calls (log (found_then_hook w ev kind hook reply).2) =
        hook_calls (log w) ++ [(kind, doc)].
Proof.
  intros Hev. unfold found_then_hook.
  destruct reply as [[r|e] db1]; [|left; by apply requested_hook_calls].
  cbv zeta.
  destruct (truthy (Mongo.value r)); [|left; by apply requested_hook_calls].
  destruct hook as [hook|]; [|left; by apply requested_hook_calls].
  right. exists (Mongo.value r).
  destruct (hook _ _) as [[[]|e] db2]; by apply hooked_hook_calls.
Qed.

(** X2: Whatever the outcome and whatever hooks are configured, [createOne]
    invokes at most one hook, the post-create one; [updateOne] at most the
    post-update one, once; [deleteOne] at most the post-delete one, once; the
    two reads invoke none. *)
Theorem at_most_one_hook_of_own_kind :
  (∀ input options (w : world DB Query),
      let l := log (createOne c input options w).2 in
      hook_calls l = hook_calls (log w)
      ∨ ∃ doc, hook_calls l = hook_calls (log w) ++ [(PostCreate, doc)])
  ∧ (∀ query update options (w : world DB Query),
        let l := log (updateOne c query update options w).2 in
        hook_calls l = hook_calls (log w)
        ∨ ∃ doc, hook_calls l = hook_calls (log w) ++ [(PostUpdate, doc)])
  ∧ (∀ query options (w : world DB Query),
        let l := log (deleteOne c query options w).2 in
        hook_calls l = hook_calls (log w)
        ∨ ∃ doc, hook_calls l = hook_calls (log w) ++ [(PostDelete, doc)])
  ∧ (∀ query options (w : world DB Query),
        hook_calls (log (readOne c query options w).2) = hook_calls (log w))
  ∧ (∀ query options (w : world DB Query),
        hook_calls (log (readMany c query options w).2) = hook_calls (log w)).
Proof.
  split_and!.
  - intros input options w. cbv zeta. rewrite createOne_unfold. cbv zeta.
    destruct (Mongo.insertOne _ _ _ _ _) as [[r|e] db1];
      [|left; by apply requested_hook_calls].
    destruct (truthy (newDocument r)); [|left; by apply requested_hook_calls].
    destruct (hooks ≫= postCreateHook) as [hook|];
      [|left; by apply requested_hook_calls].
    right. exists (newDocument r).
    destruct (hook _ _) as [[[]|e] db2]; by apply hooked_hook_calls.
  - intros query update options w. cbv zeta. rewrite updateOne_unfold.
    by apply found_then_hook_calls.
  - intros query options w. cbv zeta. rewrite deleteOne_unfold.
    by apply found_then_hook_calls.
  - intros query options w. rewrite readOne_unfold.
    by apply forwarded_hook_calls.
  - intros query options w. rewrite readMany_unfold.
    by apply forwarded_hook_calls.
Qed.

(** X3: When the driver rejects the request of an operation, the operation
    rejects with the driver's reason, unchanged, the state is the one the
    driver left, and no hook is invoked. *)
Theorem driver_rejection_is_passed_on (e : jsval) (db1 : DB) :
  (∀ input options (w : world DB Query),
      Mongo.insertOne database name (default_merge defaults input) options
        (db w) = (Rejected e, db1) →
      createOne c input options w =
        (Rejected (DriverRejection e),
         requested w (InsertOne name (default_merge defaults input) options) db1))
  ∧ (∀ inputs options (w : world DB Query),
        Mongo.insertMany database name (default_merge defaults <$> inputs)
          options (db w) = (Rejected e, db1) →
        createMany c inputs options w =
          (Rejected (DriverRejection e),
           requested w
             (InsertMany name (default_merge defaults <$> inputs) options) db1))
  ∧ (∀ query update options (w : world DB Query),
        Mongo.findOneAndUpdate database name query (dollar_set update) options
          (db w) = (Rejected e, db1) →
        updateOne c query update options w =
          (Rejected (DriverRejection e),
           requested w
             (FindOneAndUpdate name query (dollar_set update) options) db1))
  ∧ (∀ query options (w : world DB Query),
        Mongo.findOneAndDelete database name query options (db w) =
          (Rejected e, db1) →
        deleteOne c query options w =
          (Rejected (DriverRejection e),
           requested w (FindOneAndDelete name query options) db1))
  ∧ (∀ query options (w : world DB Query),
        Mongo.findOne database name query options (db w) = (Rejected e, db1) →
        readOne c query options w =
          (Rejected (DriverRejection e),
           requested w (FindOne name query options) db1))
  ∧ (∀ query options (w : world DB Query),
        Mongo.find database name query options (db w) = (Rejected e, db1) →
        readMany c query options w =
          (Rejected (DriverRejection e),
           requested w (Find name query options) db1))
  ∧ (∀ query update options (w : world DB Query),
        Mongo.updateMany database name query (dollar_set update) options (db w)
          = (Rejected e, db1) →
        updateMany c query update options w =
          (Rejected (DriverRejection e),
           requested w (UpdateMany name query (dollar_set update) options) db1))
  ∧ (∀ query options (w : world DB Query),
        Mongo.deleteMany database name query options (db w) =
          (Rejected e, db1) →
        deleteMany c query options w =
          (Rejected (DriverRejection e),
           requested w (DeleteMany name query options) db1)).
Proof.
  split_and!.
  - intros input options w H. rewrite createOne_unfold. cbv zeta. by rewrite H.
  - intros inputs options w H. rewrite createMany_unfold. cbv zeta.
    by rewrite H.
  - intros query update options w H. by rewrite updateOne_unfold, H.
  - intros query options w H. by rewrite deleteOne_unfold, H.
  - intros query options w H. by rewrite readOne_unfold, H.
  - intros query options w H. by rewrite readMany_unfold, H.
  - intros query update options w H. by rewrite updateMany_unfold, H.
  - intros query options w H. by rewrite deleteMany_unfold, H.
Qed.

End requests_and_hooks.

Section requests_received.
Context {S Query : Type}.
Context (inner : Mongo.Db S Query) (name : string).
Context (defaults : option document) (hooks : option (Hooks S)).

Local Abbreviation rc :=
  (collection (Recorder.database inner) name defaults
     (Recorder.hooks Query <$> hooks)).

(** X1: Whatever the outcome and whatever the hooks do to the database,
    an operation makes the driver receive exactly one request: the one of
    its kind, addressed to the collection the accessor was created for, with
    the query and the options as the caller gave them and the update wrapped
    in [$set]. There is no second attempt and no undoing request. The driver
    is any driver, behind a record of what it receives. *)
Theorem one_request_per_operation :
  (∀ input options (w : world (Recorder.DB S Query) Query),
      Recorder.received (createOne rc input options w).2 =
        Recorder.received w
          ++ [InsertOne name (default_merge defaults input) options])
  ∧ (∀ inputs options (w : world (Recorder.DB S Query) Query),
        Recorder.received (createMany rc inputs options w).2 =
          Recorder.received w
            ++ [InsertMany name (default_merge defaults <$> inputs) options])
  ∧ (∀ query update options (w : world (Recorder.DB S Query) Query),
        Recorder.received (updateOne rc query update options w).2 =
          Recorder.received w
            ++ [FindOneAndUpdate name query (dollar_set update) options])
  ∧ (∀ query options (w : world (Recorder.DB S Query) Query),
        Recorder.received (deleteOne rc query options w).2 =
          Recorder.received w ++ [FindOneAndDelete name query options])
  ∧ (∀ query options (w : world (Recorder.DB S Query) Query),
        Recorder.received (readOne rc query options w).2 =
          Recorder.received w ++ [FindOne name query options])
  ∧ (∀ query options (w : world (Recorder.DB S Query) Query),
        Recorder.received (readMany rc query options w).2 =
          Recorder.received w ++ [Find name query options])
  ∧ (∀ query update options (w : world (Recorder.DB S Query) Query),
        Recorder.received (updateMany rc query update options w).2 =
          Recorder.received w
            ++ [UpdateMany name query (dollar_set update) options])
  ∧ (∀ query options (w : world (Recorder.DB S Query) Query),
        Recorder.received (deleteMany rc query options w).2 =
          Recorder.received w ++ [DeleteMany name query options]).
Proof.
  split_and!.
  - intros input options w. apply recorder_createOne.
  - intros inputs options w. apply recorder_createMany.
  - intros query update options w. apply recorder_updateOne.
  - intros query options w. apply recorder_deleteOne.
  - intros query options w. rewrite readOne_unfold.
    apply recorder_forwarded.
  - intros query options w. rewrite readMany_unfold.
    apply recorder_forwarded.
  - intros query update options w. rewrite updateMany_unfold.
    apply recorder_forwarded.
  - intros query options w. rewrite deleteMany_unfold.
    apply recorder_forwarded.
Qed.

End requests_received.

Section single_document_operations.
Context {DB Query : Type}.
Context (database : Mongo.Db DB Query) (name : string).
Context (defaults : option document) (hooks : option (Hooks DB)).

Local Abbreviation c := (collection database name defaults hooks).

Lemma found_then_hook_fulfilled (w w' : world DB Query) ev kind hook reply doc :
  is_hook_call ev = false →
  found_then_hook w ev kind (Some hook) reply = (Fulfilled doc, w') →
  truthy doc = true →
  hook_calls (log w') = hook_calls (log w) ++ [(kind, doc)]
  ∧ ∃ r db1,
      reply = (Fulfilled r, db1)
      ∧ Mongo.value r = doc
      ∧ hook doc db1 = (Fulfilled (), db w').
Proof.
  intros Hev. unfold found_then_hook.
  destruct reply as [[r|e] db1]; [|done]. cbv zeta.
  destruct (truthy (Mongo.value r)) eqn:Hr.
  - destruct (hook _ _) as [[[]|e] db2] eqn:Hrun; [|done].
    intros [= <- <-] _. split; [by apply hooked_hook_calls|].
    by exists r, db1.
  - intros [= <- <-] Hdoc. congruence.
Qed.

(** X4: When a post-update hook is configured and [updateOne] returns a
    document, the hook was invoked exactly once, on the document returned,
    after the driver's update, and had completed before the return. The same
    holds of [deleteOne] and the post-delete hook, whose argument is the
    document the driver removed. *)
Theorem update_delete_hook_once :
  (∀ hook query update options (w : world DB Query) doc w',
      hooks ≫= postUpdateHook = Some hook →
      updateOne c query update options w = (Fulfilled doc, w') →
      truthy doc = true →
      hook_calls (log w') = hook_calls (log w) ++ [(PostUpdate, doc)]
      ∧ ∃ r db1,
          Mongo.findOneAndUpdate database name query (dollar_set update)
            options (db w) = (Fulfilled r, db1)
          ∧ Mongo.value r = doc
          ∧ hook doc db1 = (Fulfilled (), db w'))
  ∧ (∀ hook query options (w : world DB Query) doc w',
        hooks ≫= postDeleteHook = Some hook →
        deleteOne c query options w = (Fulfilled doc, w') →
        truthy doc = true →
        hook_calls (log w') = hook_calls (log w) ++ [(PostDelete, doc)]
        ∧ ∃ r db1,
            Mongo.findOneAndDelete database name query options (db w) =
              (Fulfilled r, db1)
            ∧ Mongo.value r = doc
            ∧ hook doc db1 = (Fulfilled (), db w')).
Proof.
  split.
  - intros hook query update options w doc w' Hhook.
    rewrite updateOne_unfold, Hhook. by apply found_then_hook_fulfilled.
  - intros hook query options w doc w' Hhook.
    rewrite deleteOne_unfold, Hhook. by apply found_then_hook_fulfilled.
Qed.

(** X5: [updateOne] and [deleteOne] return the [value] of the driver's reply
    as it is: unlike [readOne] they do not turn a falsy value into [null], so
    a reply holding [undefined], [0], [false] or an empty string is returned
    to the caller as such, and no hook is invoked on it. *)
Theorem update_delete_return_falsy_value_unchanged :
  (∀ query update options (w : world DB Query) r db1,
      Mongo.findOneAndUpdate database name query (dollar_set update) options
        (db w) = (Fulfilled r, db1) →
      truthy (Mongo.value r) = false →
      updateOne c query update options w =
        (Fulfilled (Mongo.value r),
         requested w (FindOneAndUpdate name query (dollar_set update) options)
           db1))
  ∧ (∀ query options (w : world DB Query) r db1,
        Mongo.findOneAndDelete database name query options (db w) =
          (Fulfilled r, db1) →
        truthy (Mongo.value r) = false →
        deleteOne c query options w =
          (Fulfilled (Mongo.value r),
           requested w (FindOneAndDelete name query options) db1)).
Proof.
  split.
  - intros query update options w r db1 Hfind Hr.
    rewrite updateOne_unfold, Hfind. unfold found_then_hook. cbv zeta.
    by rewrite Hr.
  - intros query options w r db1 Hfind Hr.
    rewrite deleteOne_unfold, Hfind. unfold found_then_hook. cbv zeta.
    by rewrite Hr.
Qed.

(** X6: In terms of the reply of [insertOne]: [createOne] goes on to the hook
    and returns a document exactly when the reply has an [ops] array, its
    [result.ok] is not [0] and the first element of [ops] is truthy, and
    that element is then the document returned. In every other case,
    whether [ops] is missing or empty, [result.ok] is [0] although [ops]
    holds the document, or the first element is falsy, [createOne] throws
    its own error after the insert and invokes no hook. *)
Theorem createOne_reads_ops_and_ok input options (w : world DB Query) r db1 :
  Mongo.insertOne database name (default_merge defaults input) options (db w)
    = (Fulfilled r, db1) →
  let ev := InsertOne name (default_merge defaults input) options in
  ((∃ doc rest,
       Mongo.ops r = Some (doc :: rest)
       ∧ Mongo.ok (Mongo.result r) ≠ 0%Z
       ∧ truthy doc = true)
   ∨ createOne c input options w = (Rejected creation_error, requested w ev db1))
  ∧ (∀ doc rest,
        Mongo.ops r = Some (doc :: rest) →
        Mongo.ok (Mongo.result r) ≠ 0%Z →
        truthy doc = true →
        (createOne c input options w).1 ≠ Rejected creation_error
        ∧ ∀ v, (createOne c input options w).1 = Fulfilled v → v = doc)
  ∧ (Mongo.ops r = None ∨ Mongo.ops r = Some []
     ∨ Mongo.ok (Mongo.result r) = 0%Z →
     createOne c input options w = (Rejected creation_error, requested w ev db1)).
Proof.
  intros Hinsert ev. rewrite createOne_unfold. cbv zeta. rewrite Hinsert.
  pose proof (newDocument_truthy r) as Htruthy.
  split_and!.
  - destruct (truthy (newDocument r)); [left|by right].
    destruct (proj1 Htruthy eq_refl) as (doc & rest & ? & ? & ? & _).
    by exists doc, rest.
  - intros doc rest Hops Hok Hdoc.
    assert (Hnew : newDocument r = doc).
    { unfold newDocument. rewrite Hops. simpl.
      by destruct (Z.eqb_spec (Mongo.ok (Mongo.result r)) 0). }
    rewrite Hnew, Hdoc.
    destruct (hooks ≫= postCreateHook) as [hook|]; simpl.
    + destruct (hook _ _) as [[[]|e] db2]; simpl;
        (split; [done|]); by intros v [= <-].
    + split; [done|]. by intros v [= <-].
  - intros Hnone.
    assert (Hnew : newDocument r = VUndefined).
    { unfold newDocument.
      destruct Hnone as [Hops|[Hops|Hok]].
      - by rewrite Hops.
      - rewrite Hops. simpl. by destruct (negb _).
      - rewrite Hok. simpl. by destruct (Mongo.ops r). }
    by rewrite Hnew.
Qed.

End single_document_operations.

(** ** The document written *)

Lemma spread_edges (Defaults input : document) :
  dom (spread Defaults input) = dom Defaults ∪ dom input
  ∧ spread ∅ input = input
  ∧ spread Defaults ∅ = Defaults
  ∧ spread Defaults (spread Defaults input) = spread Defaults input.
Proof.
  unfold spread, copyDataProperties.
  rewrite !(right_id_L ∅ (∪)). split_and!.
  - rewrite dom_union_L. apply (comm_L (∪)).
  - done.
  - by rewrite (left_id_L ∅ (∪)).
  - by rewrite <- (assoc_L (∪)), (idemp_L (∪) Defaults).
Qed.

(** X7: An empty Defaults object changes nothing: [createOne] then does
    exactly what it does without Defaults. With an empty input it does what
    it does, without Defaults, on Defaults as the input; and an input that
    already went through the merge is treated as the input it came from. The
    keys of the document the driver receives are those of Defaults and those
    of the input together. *)
Theorem createOne_written_document_edges {DB Query}
    (database : Mongo.Db DB Query) (name : string) (hooks : option (Hooks DB))
    (Defaults input : document) (options : option document) :
  (∀ w : world DB Query,
      createOne (collection database name (Some ∅) hooks) input options w =
        createOne (collection database name None hooks) input options w)
  ∧ (∀ w : world DB Query,
        createOne (collection database name (Some Defaults) hooks) ∅ options w
          = createOne (collection database name None hooks) Defaults options w)
  ∧ (∀ w : world DB Query,
        createOne (collection database name (Some Defaults) hooks)
          (default_merge (Some Defaults) input) options w =
          createOne (collection database name (Some Defaults) hooks) input
            options w)
  ∧ (∀ w : world (Recorder.DB DB Query) Query,
        ∃ doc,
          Recorder.received
            (createOne
               (collection (Recorder.database database) name (Some Defaults)
                  (Recorder.hooks Query <$> hooks)) input options w).2 =
            Recorder.received w ++ [InsertOne name doc options]
          ∧ dom doc = dom Defaults ∪ dom input).
Proof.
  destruct (spread_edges Defaults input) as (Hdom & _ & Hempty & Hidem).
  destruct (spread_edges ∅ input) as (_ & Hnone & _).
  rewrite !spread_default_merge in *.
  split_and!.
  - intros w. rewrite !createOne_unfold. cbv zeta. by rewrite Hnone.
  - intros w. rewrite !createOne_unfold. cbv zeta. by rewrite Hempty.
  - intros w. rewrite !createOne_unfold. cbv zeta. by rewrite Hidem.
  - intros w. exists (default_merge (Some Defaults) input). split; [|done].
    apply recorder_createOne.
Qed.

(** ** Operations in sequence, on the in-memory store *)

Lemma mem_readOne name defaults hooks (filter : Mem.Query) options
    (w : world Mem.DB Mem.Query) :
  readOne (collection Mem.database name defaults hooks) filter options w =
    (Fulfilled (match List.filter filter (Mem.documents name (db w)) with
                | d :: _ => VObj d
                | [] => VNull
                end),
     requested w (FindOne name filter options) (db w)).
Proof.
  rewrite readOne_unfold. cbn [Mongo.findOne Mem.database].
  unfold Mem.findOne, forwarded, js_or.
  by destruct (List.filter filter _).
Qed.

Lemma mem_readMany name defaults hooks (filter : Mem.Query) options
    (w : world Mem.DB Mem.Query) :
  readMany (collection Mem.database name defaults hooks) filter options w =
    (Fulfilled (VObj <$> List.filter filter (Mem.documents name (db w))),
     requested w (Find name filter options) (db w)).
Proof. by rewrite readMany_unfold. Qed.

Lemma filter_none (filter : Mem.Query) (l : list document) :
  Forall (λ d, filter d = false) l → List.filter filter l = [].
Proof. induction 1 as [|d l Hd _ IH]; simpl; [done|]. by rewrite Hd. Qed.

(** X9: A document created without hook is stored after those the collection
    held, as the document [createOne] returned. A [readOne] whose filter
    selects that document and none of the earlier ones reads it back, and a
    [readMany] returns what it returned before the creation, followed by the
    new document when the filter selects it. *)
Theorem created_document_is_read_back name defaults input options
    (w w1 : world Mem.DB Mem.Query) doc :
  let c := collection Mem.database name defaults None in
  createOne c input options w = (Fulfilled doc, w1) →
  ∃ d,
    doc = VObj d
    ∧ Mem.documents name (db w1) = Mem.documents name (db w) ++ [d]
    ∧ (∀ (filter : Mem.Query) options',
          filter d = true →
          Forall (λ d', filter d' = false) (Mem.documents name (db w)) →
          (readOne c filter options' w1).1 = Fulfilled doc)
    ∧ (∀ (filter : Mem.Query) options' before,
          (readMany c filter options' w).1 = Fulfilled before →
          (readMany c filter options' w1).1 =
            Fulfilled (before ++ if filter d then [doc] else [])).
Proof.
  intros c Hcreate. subst c. rewrite createOne_unfold in Hcreate.
  cbv zeta in Hcreate. cbn [Mongo.insertOne Mem.database] in Hcreate.
  unfold Mem.insertOne in Hcreate.
  destruct (Mem.insert_document _ _ _) as [[d|e] s1] eqn:Hinsert; [|done].
  destruct (mem_insert_document _ _ _ _ _ Hinsert) as (_ & Hdocs & _).
  cbn in Hcreate. injection Hcreate as <- <-. exists d.
  split_and!; [done..| |].
  - intros filter options' Hd Hnone. rewrite mem_readOne. simpl.
    rewrite Hdocs, List.filter_app, (filter_none _ _ Hnone). simpl.
    by rewrite Hd.
  - intros filter options' before. rewrite !mem_readMany. simpl.
    intros [= <-]. rewrite Hdocs, List.filter_app, fmap_app. simpl.
    by destruct (filter d).
Qed.

Lemma mem_deleteOne_match name defaults (filter : Mem.Query) options
    (w : world Mem.DB Mem.Query) (l1 l2 : list document) d :
  Mem.documents name (db w) = l1 ++ d :: l2 →
  Forall (λ d, filter d = false) l1 →
  filter d = true →
  deleteOne (collection Mem.database name defaults None) filter options w =
    (Fulfilled (VObj d),
     requested w (FindOneAndDelete name filter options)
       (Mem.set_documents name (l1 ++ l2) (db w))).
Proof.
  intros Hdocs Hl1 Hd. rewrite deleteOne_unfold.
  cbn [Mongo.findOneAndDelete Mem.database]. unfold Mem.findOneAndDelete.
  by rewrite Hdocs, modify_first_match.
Qed.

Lemma mem_deleteMany name defaults hooks (filter : Mem.Query) options
    (w : world Mem.DB Mem.Query) :
  deleteMany (collection Mem.database name defaults hooks) filter options w =
    (Fulfilled (length (List.filter filter (Mem.documents name (db w)))),
     requested w (DeleteMany name filter options)
       (Mem.set_documents name
          (List.filter (λ d, negb (filter d)) (Mem.documents name (db w)))
          (db w))).
Proof. by rewrite deleteMany_unfold. Qed.

Lemma mem_updateMany name defaults hooks (filter : Mem.Query) update options
    (w : world Mem.DB Mem.Query) :
  updateMany (collection Mem.database name defaults hooks) filter update
    options w =
    (Fulfilled (length (List.filter filter (Mem.documents name (db w)))),
     requested w (UpdateMany name filter (dollar_set update) options)
       (Mem.set_documents name
          ((λ d, if filter d then update ∪ d else d)
             <$> Mem.documents name (db w))
          (db w))).
Proof. by rewrite updateMany_unfold. Qed.

(** X10: [deleteOne] without hook, on a store where the filter selects a
    document:
    the first such document is returned as it was and is the only one
    removed; the others stay, in their order, as a later [readMany] shows. *)
Theorem deleteOne_removes_first_match name defaults (filter : Mem.Query)
    options (w : world Mem.DB Mem.Query) (l1 l2 : list document) d :
  Mem.documents name (db w) = l1 ++ d :: l2 →
  Forall (λ d, filter d = false) l1 →
  filter d = true →
  let c := collection Mem.database name defaults None in
  let run := deleteOne c filter options w in
  run.1 = Fulfilled (VObj d)
  ∧ Mem.documents name (db run.2) = l1 ++ l2
  ∧ ∀ (filter' : Mem.Query) options',
      (readMany c filter' options' run.2).1 =
        Fulfilled (VObj <$> List.filter filter' (l1 ++ l2)).
Proof.
  intros Hdocs Hl1 Hd c run. subst run c.
  rewrite (mem_deleteOne_match _ _ _ _ _ l1 l2 d) by done.
  cbn [fst snd]. unfold requested at 1 2. cbn [db].
  split_and!; [done|apply documents_set_documents|].
  intros filter' options'. rewrite mem_readMany.
  cbn [fst]. unfold requested. cbn [db].
  by rewrite documents_set_documents.
Qed.

(** X11: [deleteMany] on the store returns the number of documents the filter
    selects and removes exactly those; a [readMany] with the same filter then
    returns an empty array, and a second [deleteMany] returns [0]. *)
Theorem deleteMany_removes_every_match name defaults hooks
    (filter : Mem.Query) options (w : world Mem.DB Mem.Query) :
  let c := collection Mem.database name defaults hooks in
  let run := deleteMany c filter options w in
  run.1 = Fulfilled (length (List.filter filter (Mem.documents name (db w))))
  ∧ Mem.documents name (db run.2) =
      List.filter (λ d, negb (filter d)) (Mem.documents name (db w))
  ∧ (∀ options', (readMany c filter options' run.2).1 = Fulfilled [])
  ∧ (∀ options', (deleteMany c filter options' run.2).1 = Fulfilled 0%nat).
Proof.
  intros c run. subst run c. rewrite mem_deleteMany.
  cbn [fst snd]. unfold requested at 1 2 3. cbn [db].
  assert (Hleft : List.filter filter
                    (List.filter (λ d, negb (filter d))
                       (Mem.documents name (db w))) = []).
  { induction (Mem.documents name (db w)) as [|d l IH]; simpl; [done|].
    destruct (filter d) eqn:Hd; simpl; [done|]. by rewrite Hd. }
  split_and!; [done|apply documents_set_documents| |].
  - intros options'. rewrite mem_readMany. cbn [fst db].
    by rewrite documents_set_documents, Hleft.
  - intros options'. rewrite mem_deleteMany. cbn [fst db].
    by rewrite documents_set_documents, Hleft.
Qed.

(** X12: [updateMany] on the store, when the update does not change which
    stored
    documents the filter selects: a [readMany] with the same filter then
    returns the documents it returned before, each with the fields of the
    update set, in the same order, and as many as [updateMany] counted. *)
Theorem updateMany_then_readMany name defaults hooks (filter : Mem.Query)
    update options (w : world Mem.DB Mem.Query) :
  Forall (λ d, filter (update ∪ d) = filter d) (Mem.documents name (db w)) →
  let c := collection Mem.database name defaults hooks in
  let run := updateMany c filter update options w in
  let selected := List.filter filter (Mem.documents name (db w)) in
  run.1 = Fulfilled (length selected)
  ∧ (∀ options',
        (readMany c filter options' run.2).1 =
          Fulfilled ((λ d, VObj (update ∪ d)) <$> selected))
  ∧ Mem.documents name (db run.2) =
      (λ d, if filter d then update ∪ d else d) <$> Mem.documents name (db w).
Proof.
  intros Hstable c run selected. subst run selected c.
  rewrite mem_updateMany.
  cbn [fst snd]. unfold requested at 1 2. cbn [db].
  split_and!; [done| |apply documents_set_documents].
  intros options'. rewrite mem_readMany. cbn [fst db].
  rewrite documents_set_documents. f_equal.
  induction Hstable as [|d l Hd _ IH]; simpl; [done|].
  destruct (filter d) eqn:Hfd; simpl; rewrite ?Hd, ?Hfd; simpl.
  - f_equal. exact IH.
  - exact IH.
Qed.

(** X8: [readMany] returns the array the driver's [find] yields, as it is, and
    invokes no hook, whatever hooks are configured. On the store that array
    holds the documents the filter selects, in the order of their insertion,
    and is empty when the filter selects none; the store is left as it
    was. *)
Theorem readMany_returns_found :
  (∀ DB Query (database : Mongo.Db DB Query) name defaults hooks
     query options (w : world DB Query),
      let c := collection database name defaults hooks in
      (readMany c query options w).1 =
        match (Mongo.find database name query options (db w)).1 with
        | Fulfilled docs => Fulfilled docs
        | Rejected e => Rejected (DriverRejection e)
        end
      ∧ hook_calls (log (readMany c query options w).2) = hook_calls (log w))
  ∧ (∀ name defaults hooks (filter : Mem.Query) options
       (w : world Mem.DB Mem.Query),
        let c := collection Mem.database name defaults hooks in
        (readMany c filter options w).1 =
          Fulfilled (VObj <$> List.filter filter (Mem.documents name (db w)))
        ∧ db (readMany c filter options w).2 = db w
        ∧ (Forall (λ d, filter d = false) (Mem.documents name (db w)) ↔
           (readMany c filter options w).1 = Fulfilled [])).
Proof.
  split.
  - intros DB Query database name defaults hooks query options w c. subst c.
    rewrite readMany_unfold. split.
    + by destruct (Mongo.find _ _ _ _ _) as [[docs|e] db1].
    + by apply forwarded_hook_calls.
  - intros name defaults hooks filter options w c. subst c.
    rewrite mem_readMany. cbn [fst snd]. unfold requested. cbn [db].
    split_and!; [done..|]. split.
    + intros Hnone. by rewrite filter_none.
    + intros [= Hnil]. apply fmap_nil_inv in Hnil.
      induction (Mem.documents name (db w)) as [|d l IH]; [done|].
      simpl in Hnil. destruct (filter d) eqn:Hd; [done|].
      constructor; [done|by apply IH].
Qed.

Lemma mem_insert_documents_other name docs s r s' other :
  Mem.insert_documents name docs s = (r, s') →
  other ≠ name →
  Mem.documents other s' = Mem.documents other s.
Proof.
  intros Hrun Hne. revert s r s' Hrun.
  induction docs as [|doc docs IH]; intros s r s'; simpl.
  - by intros [= _ <-].
  - destruct (Mem.insert_document name doc s) as [[d|e] s1] eqn:Hinsert.
    + destruct (mem_insert_document _ _ _ _ _ Hinsert) as (_ & _ & Hother).
      destruct (Mem.insert_documents name docs s1) as [[ids|e] s2] eqn:Hrest;
        intros [= _ <-]; rewrite (IH _ _ _ Hrest); by apply Hother.
    + intros [= _ <-]. by rewrite (mem_insert_document_rejected _ _ _ _ _ Hinsert).
Qed.

(** The requests of the store act on the collection they name only. *)
Lemma mem_requests_other name other (filter : Mem.Query) update options s :
  other ≠ name →
  (∀ doc, Mem.documents other (Mem.insertOne name doc options s).2 =
            Mem.documents other s)
  ∧ (∀ docs, Mem.documents other (Mem.insertMany name docs options s).2 =
               Mem.documents other s)
  ∧ Mem.documents other (Mem.findOneAndUpdate name filter update options s).2 =
      Mem.documents other s
  ∧ Mem.documents other (Mem.findOneAndDelete name filter options s).2 =
      Mem.documents other s
  ∧ Mem.documents other (Mem.updateMany name filter update options s).2 =
      Mem.documents other s
  ∧ Mem.documents other (Mem.deleteMany name filter options s).2 =
      Mem.documents other s.
Proof.
  intros Hne. split_and!.
  - intros doc. unfold Mem.insertOne.
    destruct (Mem.insert_document name doc s) as [[d|e] s1] eqn:Hinsert; simpl.
    + destruct (mem_insert_document _ _ _ _ _ Hinsert) as (_ & _ & Hother).
      by apply Hother.
    + by rewrite (mem_insert_document_rejected _ _ _ _ _ Hinsert).
  - intros docs. unfold Mem.insertMany.
    destruct (Mem.insert_documents name docs s) as [[ids|e] s1] eqn:Hrun;
      simpl; by apply (mem_insert_documents_other _ _ _ _ _ _ Hrun).
  - unfold Mem.findOneAndUpdate.
    destruct (Mem.modify_first _ _ _) as [[d|] l]; simpl; [|done].
    by apply documents_set_documents_ne.
  - unfold Mem.findOneAndDelete.
    destruct (Mem.modify_first _ _ _) as [[d|] l]; simpl; [|done].
    by apply documents_set_documents_ne.
  - unfold Mem.updateMany; simpl. by apply documents_set_documents_ne.
  - unfold Mem.deleteMany; simpl. by apply documents_set_documents_ne.
Qed.

(** X15: On the store, an accessor without hooks acts on its own collection
    only: whatever the operation and its outcome, the documents of every
    other collection are as they were. *)
Theorem other_collections_untouched name other defaults
    (w : world Mem.DB Mem.Query) :
  other ≠ name →
  let c := collection Mem.database name defaults None in
  let same (w' : world Mem.DB Mem.Query) :=
    Mem.documents other (db w') = Mem.documents other (db w) in
  (∀ input options, same (createOne c input options w).2)
  ∧ (∀ inputs options, same (createMany c inputs options w).2)
  ∧ (∀ filter update options, same (updateOne c filter update options w).2)
  ∧ (∀ filter options, same (deleteOne c filter options w).2)
  ∧ (∀ filter options, same (readOne c filter options w).2)
  ∧ (∀ filter options, same (readMany c filter options w).2)
  ∧ (∀ filter update options, same (updateMany c filter update options w).2)
  ∧ (∀ filter options, same (deleteMany c filter options w).2).
Proof.
  intros Hne c same. subst c same. cbv beta.
  assert (Hfound : ∀ ev kind reply,
            db (found_then_hook w ev kind None reply).2 = reply.2).
  { intros ev kind [[r|e] db1]; [|done]. unfold found_then_hook. cbv zeta.
    by destruct (truthy _). }
  assert (Hforwarded : ∀ A B ev (f : A → B) reply,
            db (forwarded w ev f reply).2 = reply.2).
  { by intros A B ev f [[a|e] db1]. }
  split_and!.
  - intros input options. rewrite createOne_unfold. cbv zeta.
    cbn [Mongo.insertOne Mem.database].
    destruct (mem_requests_other name other (λ _, true) (dollar_set ∅) options
                (db w) Hne) as (Hone & _).
    specialize (Hone (default_merge defaults input)).
    destruct (Mem.insertOne _ _ _ _) as [[r|e] db1]; [|done].
    by destruct (truthy (newDocument r)).
  - intros inputs options. rewrite createMany_unfold. cbv zeta.
    rewrite Hforwarded. cbn [Mongo.insertMany Mem.database].
    by apply (mem_requests_other name other (λ _, true) (dollar_set ∅)).
  - intros filter update options. rewrite updateOne_unfold.
    rewrite Hfound. cbn [Mongo.findOneAndUpdate Mem.database].
    by apply mem_requests_other.
  - intros filter options. rewrite deleteOne_unfold.
    rewrite Hfound. cbn [Mongo.findOneAndDelete Mem.database].
    by apply (mem_requests_other name other filter (dollar_set ∅)).
  - intros filter options. by rewrite mem_readOne.
  - intros filter options. by rewrite mem_readMany.
  - intros filter update options. rewrite mem_updateMany.
    cbn [snd db requested]. by apply documents_set_documents_ne.
  - intros filter options. rewrite mem_deleteMany.
    cbn [snd db requested]. by apply documents_set_documents_ne.
Qed.

(** X16: [createMany] on the store, when the insert is accepted: one document
    per input is stored after those the collection held, in the order of the
    inputs, each the default-merge of its input with an [_id]; the array
    returned holds the [_id] of each, in the same order, none of them [null]
    or [undefined]. *)
Theorem createMany_stores_in_order name defaults hooks inputs options
    (w w1 : world Mem.DB Mem.Query) ids :
  createMany (collection Mem.database name defaults hooks) inputs options w =
    (Fulfilled ids, w1) →
  ∃ ds,
    Mem.documents name (db w1) = Mem.documents name (db w) ++ ds
    ∧ Forall2 (λ d input,
                 ∃ id, d = Mem.prepare id (default_merge defaults input))
        ds inputs
    ∧ Forall2 (λ id d, d !! "_id" = Some id ∧ id ≠ VNull ∧ id ≠ VUndefined)
        ids ds
    ∧ length ids = length inputs.
Proof.
  rewrite createMany_unfold. cbv zeta.
  cbn [Mongo.insertMany Mem.database]. unfold Mem.insertMany.
  destruct (Mem.insert_documents _ _ _) as [[ids'|e] s1] eqn:Hrun; [|done].
  unfold forwarded. intros [= <- <-].
  destruct (mem_insert_documents_fulfilled _ _ _ _ _ Hrun)
    as (ds & Hdocs & Hids & Hall).
  assert (Hmerged : Forall2 (λ d input,
                      ∃ id, d = Mem.prepare id (default_merge defaults input))
                      ds inputs).
  { apply Forall2_fmap_r in Hall. exact Hall. }
  exists ds. split_and!; [done|done| |].
  - cbn [Mongo.insertedIds]. rewrite Hids. clear Hids Hdocs Hrun Hall.
    induction Hmerged as [|d input ds inputs [id ->] _ IH]; simpl;
      constructor; [|done].
    destruct (prepare_has_id id (default_merge defaults input))
      as (v & Hv & ? & ?).
    by rewrite Hv.
  - cbn [Mongo.insertedIds]. rewrite Hids, length_fmap.
    by apply Forall2_length in Hmerged.
Qed.

(** ** The further properties at concrete inputs *)

(** X3 at a concrete input: every operation against a driver that cannot
    reach its server. *)
Lemma driver_rejection_is_passed_on_witness :
  let c := collection Offline.database Users.name (Some Users.defaults)
             (Some Offline.hooks) in
  let refused {A} : settled exn A := Rejected (DriverRejection Offline.reason) in
  let w := Offline.started in
  (createOne c Users.yoda_input None w).1 = refused
  ∧ hook_calls (log (createOne c Users.yoda_input None w).2) = []
  ∧ (createMany c [Users.yoda_input] None w).1 = refused
  ∧ (updateOne c () ∅ None w).1 = refused
  ∧ (deleteOne c () None w).1 = refused
  ∧ (readOne c () None w).1 = refused
  ∧ (readMany c () None w).1 = refused
  ∧ (updateMany c () ∅ None w).1 = refused
  ∧ (deleteMany c () None w).1 = refused.
Proof.
  intros c refused w. subst c refused w.
  destruct (driver_rejection_is_passed_on Offline.database Users.name
              (Some Users.defaults) (Some Offline.hooks) Offline.reason ())
    as (H1 & H2 & H3 & H4 & H5 & H6 & H7 & H8).
  rewrite (H1 Users.yoda_input None Offline.started eq_refl).
  rewrite (H2 [Users.yoda_input] None Offline.started eq_refl).
  rewrite (H3 () ∅ None Offline.started eq_refl).
  rewrite (H4 () None Offline.started eq_refl).
  rewrite (H5 () None Offline.started eq_refl).
  rewrite (H6 () None Offline.started eq_refl).
  rewrite (H7 () ∅ None Offline.started eq_refl).
  rewrite (H8 () None Offline.started eq_refl).
  repeat split.
Defined.

(** X4 at a concrete input: a user updated, then deleted, with hooks that
    record the document. *)
Lemma update_delete_hook_once_witness :
  let c := Users.users (Some Users.audit_hooks) in
  let w := Users.started [Users.yoda] in
  let promote : document := {["isAdmin" := VBool true]} in
  hook_calls (log (updateOne c (Users.named "Yoda") promote None w).2) =
    [(PostUpdate, VObj Users.yoda)]
  ∧ hook_calls (log (deleteOne c (Users.named "Yoda") None w).2) =
      [(PostDelete, VObj Users.yoda)].
Proof.
  intros c w promote. subst c. unfold Users.users.
  destruct (update_delete_hook_once Mem.database Users.name
              (Some Users.defaults) (Some Users.audit_hooks))
    as [Hupdate Hdelete].
  split.
  - assert (Hrun : updateOne (collection Mem.database Users.name
                                (Some Users.defaults) (Some Users.audit_hooks))
                     (Users.named "Yoda") promote None w =
                   (Fulfilled (VObj Users.yoda),
                    (updateOne (collection Mem.database Users.name
                                  (Some Users.defaults)
                                  (Some Users.audit_hooks))
                       (Users.named "Yoda") promote None w).2))
      by (vm_compute; reflexivity).
    destruct (Hupdate Users.audit_hook (Users.named "Yoda") promote None w
                _ _ eq_refl Hrun eq_refl) as [Hcalls _].
    exact Hcalls.
  - assert (Hrun : deleteOne (collection Mem.database Users.name
                                (Some Users.defaults) (Some Users.audit_hooks))
                     (Users.named "Yoda") None w =
                   (Fulfilled (VObj Users.yoda),
                    (deleteOne (collection Mem.database Users.name
                                  (Some Users.defaults)
                                  (Some Users.audit_hooks))
                       (Users.named "Yoda") None w).2))
      by (vm_compute; reflexivity).
    destruct (Hdelete Users.audit_hook (Users.named "Yoda") None w
                _ _ eq_refl Hrun eq_refl) as [Hcalls _].
    exact Hcalls.
Defined.

(** X5 at a concrete input: a driver whose find-and-modify replies hold
    [undefined]: [updateOne]
    and [deleteOne] return [undefined], where [readOne] returns [null]. *)
Lemma update_delete_return_falsy_value_unchanged_witness :
  let c := collection (Stub.database Stub.nothing_written VUndefined)
             Users.name None None in
  (updateOne c () ∅ None Stub.started).1 = Fulfilled VUndefined
  ∧ (deleteOne c () None Stub.started).1 = Fulfilled VUndefined
  ∧ (readOne c () None Stub.started).1 = Fulfilled VNull.
Proof.
  intros c. subst c.
  destruct (update_delete_return_falsy_value_unchanged
              (Stub.database Stub.nothing_written VUndefined)
              Users.name None None) as [Hupdate Hdelete].
  rewrite (Hupdate () ∅ None Stub.started {| Mongo.value := VUndefined |} ()
             eq_refl eq_refl).
  rewrite (Hdelete () None Stub.started {| Mongo.value := VUndefined |} ()
             eq_refl eq_refl).
  repeat split.
Defined.

(** X6 at a concrete input: an insert acknowledged with [ok: 0] although
    its [ops] holds the
    document, and the same reply with [ok: 1]. *)
Lemma createOne_reads_ops_and_ok_witness :
  let reply (ok : Z) : Mongo.InsertOneWriteOpResult :=
    {| Mongo.ops := Some [VObj Users.yoda];
       Mongo.result := {| Mongo.ok := ok; Mongo.n := 1 |} |} in
  let c (ok : Z) :=
    collection (Stub.database (reply ok) VUndefined) Users.name None None in
  (createOne (c 0%Z) Users.yoda_input None Stub.started).1 =
    Rejected creation_error
  ∧ (createOne (c 1%Z) Users.yoda_input None Stub.started).1 ≠
      Rejected creation_error
  ∧ ∀ v, (createOne (c 1%Z) Users.yoda_input None Stub.started).1 =
           Fulfilled v → v = VObj Users.yoda.
Proof.
  intros reply c. subst c.
  destruct (createOne_reads_ops_and_ok (Stub.database (reply 0%Z) VUndefined)
              Users.name None None Users.yoda_input None Stub.started
              (reply 0%Z) () eq_refl) as (_ & _ & Hzero).
  destruct (createOne_reads_ops_and_ok (Stub.database (reply 1%Z) VUndefined)
              Users.name None None Users.yoda_input None Stub.started
              (reply 1%Z) () eq_refl) as (_ & Hone & _).
  destruct (Hone (VObj Users.yoda) [] eq_refl) as [Hno Hdoc];
    [discriminate|reflexivity|].
  cbv beta. rewrite Hzero; [|right; right; reflexivity].
  split_and!; [reflexivity|exact Hno|exact Hdoc].
Defined.

(** X9 at a concrete input: Vader created in a collection that holds Yoda,
    then read back. *)
Lemma created_document_is_read_back_witness :
  let c := Users.users None in
  let w := Users.started [Users.yoda] in
  let created := createOne c {["name" := VStr "Vader"]} None w in
  let vader : document :=
    {["_id" := VObjectId 1; "name" := VStr "Vader"; "isAdmin" := VBool false]} in
  created.1 = Fulfilled (VObj vader)
  ∧ (readOne c (Users.named "Vader") None created.2).1 = Fulfilled (VObj vader)
  ∧ (readMany c (λ _, true) None created.2).1 =
      Fulfilled [VObj Users.yoda; VObj vader].
Proof.
  intros c w created vader. subst c. unfold Users.users in *.
  assert (Hrun : created = (Fulfilled (VObj vader), created.2))
    by (vm_compute; reflexivity).
  destruct (created_document_is_read_back Users.name (Some Users.defaults)
              {["name" := VStr "Vader"]} None w created.2 (VObj vader) Hrun)
    as (d & Hd & _ & Hone & Hmany).
  injection Hd as <-.
  split_and!.
  - rewrite Hrun. reflexivity.
  - apply Hone; [reflexivity|]. repeat constructor.
  - apply (Hmany (λ _, true) None [VObj Users.yoda]). reflexivity.
Defined.

(** X10 at a concrete input: Yoda deleted from a collection that holds
    Vader and Yoda. *)
Lemma deleteOne_removes_first_match_witness :
  let c := Users.users None in
  let w := Users.started [Users.vader; Users.yoda] in
  let run := deleteOne c (Users.named "Yoda") None w in
  run.1 = Fulfilled (VObj Users.yoda)
  ∧ Mem.documents Users.name (db run.2) = [Users.vader]
  ∧ (readMany c (λ _, true) None run.2).1 = Fulfilled [VObj Users.vader].
Proof.
  intros c w run. subst run c. unfold Users.users.
  destruct (deleteOne_removes_first_match Users.name (Some Users.defaults)
              (Users.named "Yoda") None w [Users.vader] [] Users.yoda)
    as (Hrun & Hdocs & Hread).
  - reflexivity.
  - repeat constructor.
  - reflexivity.
  - split_and!; [exact Hrun|exact Hdocs|].
    exact (Hread (λ _, true) None).
Defined.

(** X12 at a concrete input: every user named Yoda promoted, in a
    collection that holds Yoda and
    Vader. *)
Lemma updateMany_then_readMany_witness :
  let c := Users.users None in
  let w := Users.started [Users.yoda; Users.vader] in
  let run := updateMany c (Users.named "Yoda") {["isAdmin" := VBool true]}
               None w in
  run.1 = Fulfilled 1%nat
  ∧ (readMany c (Users.named "Yoda") None run.2).1 =
      Fulfilled [VObj Users.yoda_admin]
  ∧ Mem.documents Users.name (db run.2) = [Users.yoda_admin; Users.vader].
Proof.
  intros c w run. subst run c. unfold Users.users.
  destruct (updateMany_then_readMany Users.name (Some Users.defaults) None
              (Users.named "Yoda") {["isAdmin" := VBool true]} None w)
    as (Hrun & Hread & Hdocs).
  - repeat constructor.
  - split_and!.
    + exact Hrun.
    + rewrite (Hread None). vm_compute; reflexivity.
    + rewrite Hdocs. vm_compute; reflexivity.
Defined.

(** X13 at a concrete input: Yoda promoted with [returnOriginal: false] in
    the options. *)
Lemma updateOne_returnOriginal_false_post_image_witness :
  let c := Users.users None in
  let w := Users.started [Users.yoda] in
  let run := updateOne c (Users.named "Yoda") {["isAdmin" := VBool true]}
               (Some {["returnOriginal" := VBool false]}) w in
  run.1 = Fulfilled (VObj Users.yoda_admin)
  ∧ Mem.documents Users.name (db run.2) = [Users.yoda_admin].
Proof.
  intros c w run. subst run c. unfold Users.users.
  destruct (updateOne_returnOriginal_false_post_image Users.name
              (Some Users.defaults) (Users.named "Yoda")
              {["isAdmin" := VBool true]} w [] [] Users.yoda)
    as (Hrun & Hdocs).
  - reflexivity.
  - constructor.
  - reflexivity.
  - split.
    + rewrite Hrun. vm_compute; reflexivity.
    + rewrite Hdocs. vm_compute; reflexivity.
Defined.

(** X15 at a concrete input: every user deleted, beside an audit collection
    that holds a record. *)
Lemma other_collections_untouched_witness :
  let w : world Mem.DB Mem.Query :=
    {| db := {| Mem.collections :=
                  {["audit" := [Users.vader]; Users.name := [Users.yoda]]};
                Mem.nextId := 2 |};
       log := [] |} in
  let run := deleteMany (Users.users None) (λ _, true) None w in
  run.1 = Fulfilled 1%nat
  ∧ Mem.documents Users.name (db run.2) = []
  ∧ Mem.documents "audit" (db run.2) = [Users.vader].
Proof.
  intros w run. subst run. unfold Users.users.
  assert (Hne : "audit" ≠ Users.name) by discriminate.
  destruct (other_collections_untouched Users.name "audit"
              (Some Users.defaults) w Hne)
    as (_ & _ & _ & _ & _ & _ & _ & Hdelete).
  split_and!.
  - vm_compute; reflexivity.
  - vm_compute; reflexivity.
  - rewrite (Hdelete (λ _, true) None). vm_compute; reflexivity.
Defined.

(** X16 at a concrete input: Yoda and Vader created together in an empty
    collection. *)
Lemma createMany_stores_in_order_witness :
  let c := Users.users None in
  let w := Users.started [] in
  let run := createMany c [Users.yoda_input; {["name" := VStr "Vader"]}]
               None w in
  run.1 = Fulfilled [VObjectId 0; VObjectId 1]
  ∧ ∃ ds, Mem.documents Users.name (db run.2) = ds ∧ length ds = 2%nat.
Proof.
  intros c w run. subst c. unfold Users.users in *.
  assert (Hrun : run = (Fulfilled [VObjectId 0; VObjectId 1], run.2))
    by (vm_compute; reflexivity).
  destruct (createMany_stores_in_order Users.name (Some Users.defaults) None
              [Users.yoda_input; {["name" := VStr "Vader"]}] None w run.2
              [VObjectId 0; VObjectId 1] Hrun)
    as (ds & Hdocs & _ & Hids & _).
  split.
  - rewrite Hrun. reflexivity.
  - exists ds. split; [exact Hdocs|].
    apply Forall2_length in Hids. symmetry. exact Hids.
Defined.

(** X8 at a concrete input: no user is named Yoda, and [readMany] returns an
    empty array. *)
Lemma readMany_returns_found_witness :
  let c := Users.users (Some Users.audit_hooks) in
  let w := Users.started [Users.vader] in
  (readMany c (Users.named "Yoda") None w).1 = Fulfilled []
  ∧ (readMany c (Users.named "Vader") None w).1 = Fulfilled [VObj Users.vader]
  ∧ db (readMany c (Users.named "Vader") None w).2 = db w.
Proof.
  intros c w. subst c. unfold Users.users.
  destruct readMany_returns_found as [_ Hstore].
  destruct (Hstore Users.name (Some Users.defaults) (Some Users.audit_hooks)
              (Users.named "Yoda") None w) as (_ & _ & Hnone).
  destruct (Hstore Users.name (Some Users.defaults) (Some Users.audit_hooks)
              (Users.named "Vader") None w) as (Hfound & Hdb & _).
  split_and!.
  - apply Hnone. repeat constructor.
  - rewrite Hfound. reflexivity.
  - exact Hdb.
Defined.

(** X14 at a concrete input: Vader demoted with the options left out, in a
    collection that holds
    Yoda and Vader: Yoda is untouched, and Vader is returned as it was. *)
Lemma updateOne_default_options_pre_image_witness :
  let c := Users.users None in
  let w := Users.started [Users.yoda; Users.vader] in
  let run := updateOne c (Users.named "Vader") {["isAdmin" := VBool false]}
               None w in
  run.1 = Fulfilled (VObj Users.vader)
  ∧ Mem.documents Users.name (db run.2) =
      [Users.yoda;
       {["_id" := VObjectId 1; "name" := VStr "Vader";
         "isAdmin" := VBool false]}].
Proof.
  intros c w run. subst run c. unfold Users.users.
  destruct (updateOne_default_options_pre_image Users.name
              (Some Users.defaults) (Users.named "Vader")
              {["isAdmin" := VBool false]} w [Users.yoda] [] Users.vader)
    as (Hrun & Hdocs).
  - reflexivity.
  - repeat constructor.
  - reflexivity.
  - split.
    + exact Hrun.
    + rewrite Hdocs. vm_compute; reflexivity.
Defined.
